(** * Expense tracker: a shallow embedding of [code.py] and its properties

    The program is one class, [ExpenseTracker], over a pandas DataFrame kept
    in [self.expenses], with a CSV file behind it.  The embedding keeps

    - amounts as IEEE 754 binary64 values ([spec_float] with precision 53
      and maximal exponent 1024), compared and added by the standard
      operations;
    - the frame [self.expenses] as the list of its rows, each row a record
      of the four columns of [self.columns];
    - the CSV file as the table of cell texts the tokenizer delivers, in a
      finite map from paths to files;
    - [print], [plt.show], the file system and exceptions in a small monad
      over the object, the disk and the console.

    A frame has the four columns of [self.columns] throughout; a file with
    other columns is read as far as these four go.

    Conversions between text and numbers or dates belong to CPython and
    pandas, not to the program: they are the fields of a [platform], over
    which every statement is universally quantified.  A reference platform
    is defined for running the model on concrete inputs. *)

From Stdlib Require Import String Ascii List ZArith NArith Lia Bool.
From Stdlib Require Import DecimalString Sorted Permutation.
From Stdlib Require Import Floats.SpecFloat.
From stdpp Require Import base gmap strings.
Import ListNotations.

Local Open Scope string_scope.
Local Open Scope list_scope.

(** ** Floats: binary64 *)

Module Float.

Definition float := spec_float.

Definition prec : Z := 53.
Definition emax : Z := 1024.

Definition zero : float := S754_zero false.
Definition nan : float := S754_nan.
Definition infinity (neg : bool) : float := S754_infinity neg.

Definition add : float -> float -> float := SFadd prec emax.
Definition leb : float -> float -> bool := SFleb.
Definition ltb : float -> float -> bool := SFltb.

(** [x != x], the test pandas' [isna] makes on a float. *)
Definition is_nan (x : float) : bool :=
  match x with S754_nan => true | _ => false end.

Definition of_Z (z : Z) : float := binary_normalize prec emax z 0 false.

(** The binary64 value nearest to [m * 10^e] (ties to even): the value of
    the decimal literal with digits [m] and exponent [e]. *)
Definition of_decimal (neg : bool) (m : N) (e : Z) : float :=
  match m with
  | N0 => S754_zero neg
  | Npos p =>
      if (0 <=? e)%Z
      then binary_normalize prec emax
             (cond_Zopp neg (Zpos p * 10 ^ e)) 0 neg
      else
        let '(q, e', l) :=
          SFdiv_core_binary prec emax (Zpos p) 0 (10 ^ (- e)) 0 in
        binary_round_aux prec emax neg q e' l
  end.

(** [n / d] rounded to the nearest integer, ties to even ([0 <= n],
    [0 < d]). *)
Definition round_half_even (n d : Z) : Z :=
  let q := (n / d)%Z in
  match (2 * (n mod d) ?= d)%Z with
  | Lt => q
  | Gt => (q + 1)%Z
  | Eq => if Z.even q then q else (q + 1)%Z
  end.

(** The magnitude of [m * 2^e] in hundredths, rounded from the exact
    value as [format(x, '.2f')] rounds it. *)
Definition hundredths (m : positive) (e : Z) : Z :=
  if (0 <=? e)%Z then (Zpos m * 2 ^ e * 100)%Z
  else round_half_even (Zpos m * 100) (2 ^ (- e)).

Definition digits (n : Z) : string :=
  NilZero.string_of_uint (N.to_uint (Z.to_N n)).

Definition two_digits (n : Z) : string :=
  if (n <? 10)%Z then "0" ++ digits n else digits n.

(** Commas between groups of three digits, counted from the right. *)
Fixpoint group3 (rev_digits : list ascii) : list ascii :=
  match rev_digits with
  | a :: b :: c :: (_ :: _) as rest => a :: b :: c :: ","%char :: group3 rest
  | short => short
  end.

Definition with_commas (s : string) : string :=
  string_of_list_ascii (rev (group3 (rev (list_ascii_of_string s)))).

(** [format(x, '.2f')] when [grouped] is false, [format(x, ',.2f')] when
    it is true. *)
Definition fixed2 (grouped : bool) (x : float) : string :=
  let whole c := if grouped then with_commas (digits (c / 100))
                 else digits (c / 100) in
  match x with
  | S754_nan => "nan"
  | S754_infinity s => if s then "-inf" else "inf"
  | S754_zero s => (if s then "-" else "") ++ "0.00"
  | S754_finite s m e =>
      let c := hundredths m e in
      (if s then "-" else "") ++ whole c ++ "." ++ two_digits (c mod 100)
  end.

End Float.

Abbreviation float := Float.float.

(** ** Strings: [str.strip] and [str.capitalize] on ASCII text

    Bytes above 127 (the encoding of other letters) are left as they are. *)

Definition is_space (c : ascii) : bool :=
  let n := nat_of_ascii c in
  ((9 <=? n)%nat && (n <=? 13)%nat) || ((28 <=? n)%nat && (n <=? 32)%nat).

Fixpoint lstrip (s : string) : string :=
  match s with
  | String c rest => if is_space c then lstrip rest else s
  | EmptyString => EmptyString
  end.

Definition reverse (s : string) : string :=
  string_of_list_ascii (rev (list_ascii_of_string s)).

Definition strip (s : string) : string :=
  reverse (lstrip (reverse (lstrip s))).

Definition upper (c : ascii) : ascii :=
  let n := nat_of_ascii c in
  if ((97 <=? n)%nat && (n <=? 122)%nat) then ascii_of_nat (n - 32) else c.

Definition lower (c : ascii) : ascii :=
  let n := nat_of_ascii c in
  if ((65 <=? n)%nat && (n <=? 90)%nat) then ascii_of_nat (n + 32) else c.

Fixpoint lowercase (s : string) : string :=
  match s with
  | String c rest => String (lower c) (lowercase rest)
  | EmptyString => EmptyString
  end.

Definition capitalize (s : string) : string :=
  match s with
  | String c rest => String (upper c) (lowercase rest)
  | EmptyString => EmptyString
  end.

(** ** Dates *)

(** A [datetime.date]. *)
Record date := { year : N; month : N; day : N }.

(** Seconds since midnight: the time-of-day of a Timestamp. *)
Definition time := N.

Definition midnight : time := 0%N.

(** ** Cells of a frame *)

(** A cell of the [Category] or [Description] column: [NA] is pandas'
    missing value (NaN). *)
Inductive cell :=
| NA
| Str (s : string)
| Num (x : float)
| Bool (b : bool).

(** A cell of the [Date] column: [NaT] is the missing date, [Day] a
    [datetime.date], [Stamp] a Timestamp, [Unparsed] a text that
    [read_csv] could not parse as a date and left as it was. *)
Inductive date_cell :=
| NaT
| Day (d : date)
| Stamp (d : date) (t : time)
| Unparsed (s : string).

(** One row of [self.expenses]. *)
Record expense := {
  Date : date_cell;
  Category : cell;
  Description : cell;
  Amount : float
}.

(** ** Exceptions *)

(** The exceptions [except Exception] catches: the ones the program can
    meet by name, and any other class by its name. *)
Inductive exn :=
| ValueError
| TypeError
| KeyError (key : string)
| EmptyDataError
| ParserError
| OSError
| Exception (class : string).

(** ** Files *)

(** What [read_csv] finds at an existing path: a file it cannot open, decode
    or tokenize ([Unreadable], with the exception it raises), a file with no
    columns to parse ([Blank]), or a table: a header row of column names and
    the rows of cell texts below it. *)
Inductive file :=
| Unreadable (e : exn)
| Blank
| Table (header : list string) (rows : list (list string)).

(** ** The platform: text conversions of CPython and pandas *)

Record platform := {
  (** [float(s)] on a string: [None] is ValueError. *)
  str_to_float : string -> option float;
  (** The number pandas reads in a cell text; [None] when the text is not
      numeric. *)
  csv_number : string -> option float;
  (** The text [to_csv] writes for a float that is not NaN. *)
  float_to_csv : float -> string;
  (** [str(d)] of a [datetime.date], as [to_csv] writes it. *)
  date_to_csv : date -> string;
  (** The text [to_csv] writes for a Timestamp. *)
  stamp_to_csv : date -> time -> string;
  (** The Timestamp pandas' date parser reads in a cell text; [None] when it
      cannot parse it. *)
  csv_datetime : string -> option (date * time)
}.

(** What the environment does with the one write of [to_csv]: it goes
    through, or it raises [e] and leaves [residue] at the path ([None]: no
    file). *)
Inductive io_outcome :=
| Written
| WriteError (e : exn) (residue : option file).

(** The [amount] argument of [add_expense]: the menu passes the text the
    user typed; the signature announces a float; on any other object
    [float()] raises (TypeError, unless the object decides otherwise). *)
Inductive amount_input :=
| InText (s : string)
| InFloat (x : float)
| InOther (e : exn).

(** ** The object, the console and the monad *)

(** A row of [df_display], the copy [view_all_expenses] prints: the index
    and the four columns, [Amount] as text. *)
Record display_row := {
  shown_index : nat;
  shown_date : date_cell;
  shown_category : cell;
  shown_description : cell;
  shown_amount : cell
}.

(** What reaches the user: one constructor per [print] of the class, and
    the chart handed to [plt.show]. *)
Inductive message :=
| LoadedRecords (n : nat)
| CsvFileEmpty
| ErrorLoadingCsv (e : exn)
| NoExistingFile
| AmountMustBePositive
| AddedExpense (category description amount : string)
| InvalidAmount
| UnexpectedAddError (e : exn)
| NoExpensesToSummarize
| CategorySummary (rows : list (cell * cell)) (total : string)
| NoExpensesRecorded
| AllRecordedExpenses (rows : list display_row)
| SavedTo (path : string)
| FailedToSave (e : exn)
| CannotVisualizeNoExpenses
| CannotVisualizeSummaryFailed
| DisplayingChart
| BarChart (bars : list (cell * float)).

(** The fields of an [ExpenseTracker]; [self.columns] is a constant. *)
Record tracker := {
  filename : string;
  expenses : list expense
}.

Record world := {
  self : tracker;
  disk : gmap string file;
  console : list message
}.

Inductive result (A : Type) :=
| Return (a : A)
| Raise (e : exn).

Arguments Return {A} a.
Arguments Raise {A} e.

(** A computation changes the world and returns or raises; what it did
    before raising stays done. *)
Definition py (A : Type) : Type := world -> result A * world.

Global Instance py_ret : MRet py := fun A a w => (Return a, w).

Global Instance py_bind : MBind py := fun A B k c w =>
  match c w with
  | (Return a, w') => k a w'
  | (Raise e, w') => (Raise e, w')
  end.

Definition raise {A} (e : exn) : py A := fun w => (Raise e, w).

(** [try: c except Exception as e: handler e]. *)
Definition try_except {A} (c : py A) (handler : exn -> py A) : py A :=
  fun w =>
    match c w with
    | (Return a, w') => (Return a, w')
    | (Raise e, w') => handler e w'
    end.

Definition print (m : message) : py unit :=
  fun w => (Return tt,
            {| self := self w; disk := disk w; console := console w ++ [m] |}).

Definition get_expenses : py (list expense) :=
  fun w => (Return (expenses (self w)), w).

Definition get_filename : py string :=
  fun w => (Return (filename (self w)), w).

Definition set_expenses (df : list expense) : py unit :=
  fun w => (Return tt,
            {| self := {| filename := filename (self w); expenses := df |};
               disk := disk w; console := console w |}).

Definition set_filename (name : string) : py unit :=
  fun w => (Return tt,
            {| self := {| filename := name; expenses := expenses (self w) |};
               disk := disk w; console := console w |}).

Definition lift {A} (r : result A) : py A := fun w => (r, w).

(** ** pandas, as far as the class uses it *)

Global Instance float_eq_dec : EqDecision float.
Proof. unfold float. solve_decision. Defined.

Global Instance cell_eq_dec : EqDecision cell.
Proof. solve_decision. Defined.

(** [df.empty]. *)
Definition empty {A} (df : list A) : bool :=
  match df with [] => true | _ :: _ => false end.

(** Stable insertion sort: [x] goes before the first element that does not
    come strictly before it. *)
Fixpoint insert {A} (before : A -> A -> bool) (x : A) (l : list A) : list A :=
  match l with
  | [] => [x]
  | y :: rest => if before y x then y :: insert before x rest else x :: l
  end.

Definition sort_by {A} (before : A -> A -> bool) (l : list A) : list A :=
  fold_right (insert before) [] l.

(** The order of group keys.  A column read from a file holds keys of one
    kind; among keys of different kinds, which pandas cannot compare, the
    model puts numbers first, then Booleans, then strings.  The order of
    keys only decides the order of groups with equal totals. *)
Definition cell_leb (a b : cell) : bool :=
  match a, b with
  | NA, _ => true
  | _, NA => false
  | Num x, Num y => Float.leb x y
  | Num _, _ => true
  | Bool _, Num _ => false
  | Bool x, Bool y => implb x y
  | Bool _, Str _ => true
  | Str x, Str y => String.leb x y
  | Str _, _ => false
  end.

Definition is_na (c : cell) : bool :=
  match c with NA => true | _ => false end.

(** [Series.sum()]: missing values are skipped, and the sum of nothing is
    0.0.  The additions are IEEE additions in row order; the compensated
    and pairwise summation of pandas and numpy can differ from it in the
    last place of an inexact sum. *)
Definition nansum (l : list float) : float :=
  fold_left (fun s x => if Float.is_nan x then s else Float.add s x) l Float.zero.

(** The keys of [groupby('Category')]: the present (not NA) values of the
    column, each once, sorted. *)
Definition group_keys (df : list expense) : list cell :=
  sort_by (fun a b => negb (cell_leb b a))
    (nodup cell_eq_dec
       (List.filter (fun c => negb (is_na c)) (map Category df))).

Definition group (k : cell) (df : list expense) : list expense :=
  List.filter (fun r => bool_decide (Category r = k)) df.

(** [df.groupby('Category')['Amount'].sum()]. *)
Definition groupby_sum (df : list expense) : list (cell * float) :=
  map (fun k => (k, nansum (map Amount (group k df)))) (group_keys df).

(** [s.sort_values(ascending=False)]: totals that are not NaN in descending
    order, NaN totals last.  Equal totals stay in the order they had, which
    is what pandas does on short columns; its default sort kind promises no
    order among them. *)
Definition sort_values (s : list (cell * float)) : list (cell * float) :=
  sort_by (fun a b => Float.ltb (snd b) (snd a))
    (List.filter (fun a => negb (Float.is_nan (snd a))) s)
  ++ List.filter (fun a => Float.is_nan (snd a)) s.

(** ['${:,.2f}'.format]. *)
Definition format_currency (x : float) : string :=
  "$" ++ Float.fixed2 true x.

(** Line 76, also line 127: the totals per category, largest first. *)
Definition category_totals (df : list expense) : list (cell * float) :=
  sort_values (groupby_sum df).

(** [df.copy()], as the rows [to_string(index=True)] prints: each row with
    its index. *)
Definition copy (df : list expense) : list display_row :=
  map (fun '(i, r) =>
         {| shown_index := i;
            shown_date := Date r;
            shown_category := Category r;
            shown_description := Description r;
            shown_amount := Num (Amount r) |})
    (combine (seq 0 (length df)) df).

(** One value of [column.map('${:,.2f}'.format)] on a float column. *)
Definition format_amount (c : cell) : cell :=
  match c with
  | Num x => Str (format_currency x)
  | NA => Str (format_currency Float.nan)
  | other => other
  end.

(** [pd.concat([df, new], ignore_index=True)]. *)
Definition concat (df new : list expense) : list expense := df ++ new.

(** The texts [read_csv] takes for a missing value (its default
    [na_values]). *)
Definition na_values : list string :=
  [""; "#N/A"; "#N/A N/A"; "#NA"; "-1.#IND"; "-1.#QNAN"; "-NaN"; "-nan";
   "1.#IND"; "1.#QNAN"; "<NA>"; "N/A"; "NA"; "NULL"; "NaN"; "None"; "n/a";
   "nan"; "null"].

Definition na_text (s : string) : bool := existsb (String.eqb s) na_values.

(** The texts [read_csv] takes for Booleans. *)
Definition bool_word (s : string) : option bool :=
  if existsb (String.eqb s) ["True"; "TRUE"; "true"] then Some true
  else if existsb (String.eqb s) ["False"; "FALSE"; "false"] then Some false
  else None.

Definition is_some {A} (o : option A) : bool :=
  match o with Some _ => true | None => false end.

Fixpoint assoc {A} (name : string) (l : list (string * A)) : option A :=
  match l with
  | [] => None
  | (k, v) :: rest => if String.eqb k name then Some v else assoc name rest
  end.

Fixpoint index_of (name : string) (header : list string) : option nat :=
  match header with
  | [] => None
  | h :: rest =>
      if String.eqb h name then Some 0%nat
      else option_map S (index_of name rest)
  end.

(** The frame [read_csv] returns, before line 35 gives it a numeric
    [Amount]: the parsed [Date] column and the other columns by name. *)
Record csv_frame := {
  frame_dates : list date_cell;
  frame_columns : list (string * list cell)
}.

(** [pd.DataFrame(columns=self.columns)]. *)
Definition new_frame : csv_frame :=
  {| frame_dates := [];
     frame_columns := [("Category", []); ("Description", []); ("Amount", [])] |}.

(** The texts of column [i], one per row; a row that stops before the
    column has a missing value there. *)
Definition column_at (i : nat) (rows : list (list string)) : list string :=
  map (fun r => nth i r "") rows.

(** The header of the file [to_csv] writes. *)
Definition columns : list string :=
  ["Date"; "Category"; "Description"; "Amount"].

(** The rows of the frame with these four columns. *)
Definition frame_rows (dates : list date_cell) (categories : list cell)
    (descriptions : list cell) (amounts : list float) : list expense :=
  map (fun '(d, (c, (s, a))) =>
         {| Date := d; Category := c; Description := s; Amount := a |})
    (combine dates (combine categories (combine descriptions amounts))).

Section Pandas.

Context (P : platform).

(** The type [read_csv] gives a column: numbers when every present text
    is numeric, else Booleans when every present text is one, else the
    texts as they are; a missing value stays missing in each. *)
Definition infer_column (texts : list string) : list cell :=
  if forallb (fun s => na_text s || is_some (csv_number P s)) texts then
    map (fun s => if na_text s then NA
                  else match csv_number P s with
                       | Some x => Num x
                       | None => NA
                       end) texts
  else if forallb (fun s => na_text s || is_some (bool_word s)) texts then
    map (fun s => if na_text s then NA
                  else match bool_word s with
                       | Some b => Bool b
                       | None => NA
                       end) texts
  else map (fun s => if na_text s then NA else Str s) texts.

(** [parse_dates=['Date']]: Timestamps when every present text parses,
    else the texts as they are. *)
Definition parse_dates (texts : list string) : list date_cell :=
  if forallb (fun s => na_text s || is_some (csv_datetime P s)) texts then
    map (fun s => if na_text s then NaT
                  else match csv_datetime P s with
                       | Some (d, t) => Stamp d t
                       | None => NaT
                       end) texts
  else map (fun s => if na_text s then NaT else Unparsed s) texts.

(** [read_csv] on a table: without a [Date] column, [parse_dates] raises
    ValueError. *)
Definition read_table (header : list string) (rows : list (list string))
  : result csv_frame :=
  match index_of "Date" header with
  | None => Raise ValueError
  | Some i =>
      Return
        {| frame_dates := parse_dates (column_at i rows);
           frame_columns :=
             map (fun '(j, name) => (name, infer_column (column_at j rows)))
               (List.filter (fun '(_, name) => negb (String.eqb name "Date"))
                  (combine (seq 0 (length header)) header)) |}
  end.

(** [pd.read_csv(path, parse_dates=['Date'])]. *)
Definition read_csv (path : string) : py csv_frame :=
  fun w =>
    match disk w !! path with
    | None => (Raise OSError, w)
    | Some (Unreadable e) => (Raise e, w)
    | Some Blank => (Raise EmptyDataError, w)
    | Some (Table header rows) => (read_table header rows, w)
    end.

(** [df[name]]: KeyError when the frame has no such column. *)
Definition getitem (df : csv_frame) (name : string) : py (list cell) :=
  match assoc name (frame_columns df) with
  | Some column => mret column
  | None => raise (KeyError name)
  end.

(** [pd.to_numeric(column, errors='coerce')], cell by cell. *)
Definition coerce (c : cell) : float :=
  match c with
  | NA => Float.nan
  | Num x => x
  | Bool b => Float.of_Z (if b then 1 else 0)
  | Str s => match csv_number P s with
             | Some x => x
             | None => Float.nan
             end
  end.

Definition to_numeric (column : list cell) : list float := map coerce column.

(** The rows of a frame whose [Amount] column is [amounts].  The program
    works on the four columns of [self.columns]: a row is kept as these
    four cells, and a [Category] or [Description] column that the file
    did not have holds missing values, as it does in pandas once a row is
    appended. *)
Definition to_records (df : csv_frame) (amounts : list float)
  : list expense :=
  let column name :=
    match assoc name (frame_columns df) with
    | Some c => c
    | None => repeat NA (length (frame_dates df))
    end in
  frame_rows (frame_dates df) (column "Category") (column "Description")
    amounts.

(** One value of [pd.to_datetime(column).dt.date]. *)
Definition to_date (c : date_cell) : result date_cell :=
  match c with
  | NaT => Return NaT
  | Day d => Return (Day d)
  | Stamp d _ => Return (Day d)
  | Unparsed s =>
      match csv_datetime P s with
      | Some (d, _) => Return (Day d)
      | None => Raise ValueError
      end
  end.

Fixpoint to_dates (column : list date_cell) : result (list date_cell) :=
  match column with
  | [] => Return []
  | c :: rest =>
      match to_date c with
      | Raise e => Raise e
      | Return d =>
          match to_dates rest with
          | Raise e => Raise e
          | Return ds => Return (d :: ds)
          end
      end
  end.

(** [df['Date'] = dates]. *)
Definition set_dates (df : list expense) (dates : list date_cell)
  : list expense :=
  map (fun '(r, d) =>
         {| Date := d; Category := Category r;
            Description := Description r; Amount := Amount r |})
    (combine df dates).

Definition date_text (c : date_cell) : string :=
  match c with
  | NaT => ""
  | Day d => date_to_csv P d
  | Stamp d t => stamp_to_csv P d t
  | Unparsed s => s
  end.

Definition cell_text (c : cell) : string :=
  match c with
  | NA => ""
  | Str s => s
  | Num x => if Float.is_nan x then "" else float_to_csv P x
  | Bool b => if b then "True" else "False"
  end.

Definition row_text (r : expense) : list string :=
  [date_text (Date r); cell_text (Category r); cell_text (Description r);
   cell_text (Num (Amount r))].

(** [df.to_csv(path, index=False)]: the whole file is replaced. *)
Definition to_csv (io : io_outcome) (path : string) (df : list expense)
  : py unit :=
  fun w =>
    match io with
    | Written =>
        (Return tt,
         {| self := self w;
            disk := <[path := Table columns (map row_text df)]> (disk w);
            console := console w |})
    | WriteError e residue =>
        (Raise e,
         {| self := self w;
            disk := match residue with
                    | Some f => <[path := f]> (disk w)
                    | None => delete path (disk w)
                    end;
            console := console w |})
    end.

End Pandas.

Definition os_path_exists (path : string) : py bool :=
  fun w => (Return (is_some (disk w !! path)), w).

(** [float(amount)]. *)
Definition float_ (P : platform) (amount : amount_input) : py float :=
  match amount with
  | InText s => match str_to_float P s with
                | Some x => mret x
                | None => raise ValueError
                end
  | InFloat x => mret x
  | InOther e => raise e
  end.

(** ** The class *)

Section ExpenseTracker.

Context (P : platform).

(** Lines 11-35.  Between lines 22 and 35 [self.expenses] is the frame as
    read; it is [df] here, and [self.expenses] is assigned once, with the
    numeric [Amount] of line 35. *)
Definition __init__ (name : string) : py unit :=
  set_filename name;;
  found ← os_path_exists name;
  df ← (if found : bool then
          try_except
            (df ← read_csv P name;
             print (LoadedRecords (length (frame_dates df)));;
             mret df)
            (fun e =>
               match e with
               | EmptyDataError => print CsvFileEmpty;; mret new_frame
               | _ => print (ErrorLoadingCsv e);; mret new_frame
               end)
        else print NoExistingFile;; mret new_frame);
  amount ← getitem df "Amount";
  set_expenses (to_records df (to_numeric P amount)).

(** Lines 38-64; [today] is [datetime.now().date()]. *)
Definition add_expense (today : date) (category description : string)
    (amount : amount_input) : py unit :=
  try_except
    (amount ← float_ P amount;
     if Float.leb amount Float.zero then print AmountMustBePositive
     else
       let new_expense :=
         [{| Date := Day today;
             Category := Str (capitalize (strip category));
             Description := Str (strip description);
             Amount := amount |}] in
       df ← get_expenses;
       set_expenses (concat df new_expense);;
       print (AddedExpense category description (Float.fixed2 false amount)))
    (fun e =>
       match e with
       | ValueError => print InvalidAmount
       | _ => print (UnexpectedAddError e)
       end).

(** Lines 67-86.  Line 77 replaces the [Amount] column of the summary by
    its currency texts before the summary is printed and returned. *)
Definition summarize_by_category : py (option (list (cell * cell))) :=
  df ← get_expenses;
  if empty df then print NoExpensesToSummarize;; mret None
  else
    let category_summary := category_totals df in
    let category_summary :=
      map (fun '(k, x) => (k, format_amount (Num x))) category_summary in
    let total := nansum (map Amount df) in
    print (CategorySummary category_summary (format_currency total));;
    mret (Some category_summary).

(** Lines 89-102: the amounts are formatted in a copy of the frame. *)
Definition view_all_expenses : py unit :=
  df ← get_expenses;
  if empty df then print NoExpensesRecorded
  else
    let df_display := copy df in
    let df_display :=
      map (fun r =>
             {| shown_index := shown_index r;
                shown_date := shown_date r;
                shown_category := shown_category r;
                shown_description := shown_description r;
                shown_amount := format_amount (shown_amount r) |})
        df_display in
    print (AllRecordedExpenses df_display).

(** Lines 105-115. *)
Definition save_expenses (io : io_outcome) : py unit :=
  try_except
    (df ← get_expenses;
     dates ← lift (to_dates P (map Date df));
     set_expenses (set_dates df dates);;
     df ← get_expenses;
     name ← get_filename;
     to_csv P io name df;;
     print (SavedTo name))
    (fun e => print (FailedToSave e)).

(** Lines 118-143. *)
Definition visualize_expenses : py unit :=
  df ← get_expenses;
  if empty df then print CannotVisualizeNoExpenses
  else
    let summary := category_totals df in
    if empty summary then print CannotVisualizeSummaryFailed
    else print DisplayingChart;; print (BarChart summary).

End ExpenseTracker.

(** The world at the start of the process: the object is not built yet. *)
Definition boot (d : gmap string file) : world :=
  {| self := {| filename := ""; expenses := [] |}; disk := d; console := [] |}.

(** ** A reference platform

    Plain decimal literals read with correct rounding, floats written as
    their exact decimal expansion (CPython writes the shortest numeral that
    reads back as the same float), ISO dates. *)

Module Reference.

Definition digit_of (c : ascii) : option N :=
  let n := nat_of_ascii c in
  if ((48 <=? n)%nat && (n <=? 57)%nat) then Some (N.of_nat (n - 48))
  else None.

(** A run of digits: its value on top of [acc], how many were read on top
    of [count], and what follows. *)
Fixpoint read_digits (s : list ascii) (acc : N) (count : nat)
  : N * nat * list ascii :=
  match s with
  | c :: rest =>
      match digit_of c with
      | Some d => read_digits rest (acc * 10 + d)%N (S count)
      | None => (acc, count, s)
      end
  | [] => (acc, count, [])
  end.

Definition read_sign (s : list ascii) : bool * list ascii :=
  match s with
  | "-"%char :: rest => (true, rest)
  | "+"%char :: rest => (false, rest)
  | _ => (false, s)
  end.

Definition read_exponent (s : list ascii) : option Z :=
  match s with
  | [] => Some 0%Z
  | c :: rest =>
      if Ascii.eqb (lower c) "e"%char then
        let (neg, digits) := read_sign rest in
        match read_digits digits 0%N 0%nat with
        | (v, S _, []) => Some (cond_Zopp neg (Z.of_N v))
        | _ => None
        end
      else None
  end.

Definition read_decimal (s : list ascii) : option float :=
  let (neg, s1) := read_sign s in
  let '(whole, a, s2) := read_digits s1 0%N 0%nat in
  let '(m, b, s3) :=
    match s2 with
    | "."%char :: rest => read_digits rest whole 0%nat
    | _ => (whole, 0%nat, s2)
    end in
  match (a + b)%nat with
  | O => None
  | S _ =>
      match read_exponent s3 with
      | Some e => Some (Float.of_decimal neg m (e - Z.of_nat b))
      | None => None
      end
  end.

Definition read_word (s : string) : option float :=
  let w := lowercase s in
  if existsb (String.eqb w) ["inf"; "+inf"; "infinity"; "+infinity"]
  then Some (Float.infinity false)
  else if existsb (String.eqb w) ["-inf"; "-infinity"]
  then Some (Float.infinity true)
  else if existsb (String.eqb w) ["nan"; "+nan"; "-nan"]
  then Some Float.nan
  else None.

Definition read_float (s : string) : option float :=
  let s := strip s in
  match read_word s with
  | Some x => Some x
  | None => read_decimal (list_ascii_of_string s)
  end.

Fixpoint zeros (n : nat) : string :=
  match n with O => "" | S n' => "0" ++ zeros n' end.

Definition pad (width : nat) (s : string) : string :=
  zeros (width - String.length s) ++ s.

(** Drops up to [k] trailing zeros of [n]. *)
Fixpoint trim_zeros (k : nat) (n : Z) : Z * nat :=
  match k with
  | O => (n, O)
  | S k' => if (n mod 10 =? 0)%Z then trim_zeros k' (n / 10)%Z else (n, k)
  end.

(** The decimal expansion of [m * 2^e]. *)
Definition expansion (m : positive) (e : Z) : string :=
  if (0 <=? e)%Z then Float.digits (Zpos m * 2 ^ e) ++ ".0"
  else
    let '(n, k) := trim_zeros (Z.to_nat (- e)) (Zpos m * 5 ^ (- e)) in
    match k with
    | O => Float.digits n ++ ".0"
    | S _ =>
        let scale := (10 ^ Z.of_nat k)%Z in
        Float.digits (n / scale) ++ "." ++ pad k (Float.digits (n mod scale))
    end.

Definition write_float (x : float) : string :=
  match x with
  | S754_nan => "nan"
  | S754_infinity s => if s then "-inf" else "inf"
  | S754_zero s => if s then "-0.0" else "0.0"
  | S754_finite s m e => (if s then "-" else "") ++ expansion m e
  end.

Definition number (width : nat) (n : N) : string :=
  pad width (Float.digits (Z.of_N n)).

Definition write_date (d : date) : string :=
  number 4 (year d) ++ "-" ++ number 2 (month d) ++ "-" ++ number 2 (day d).

Definition write_stamp (d : date) (t : time) : string :=
  write_date d ++ " " ++ number 2 (t / 3600) ++ ":"
    ++ number 2 ((t / 60) mod 60) ++ ":" ++ number 2 (t mod 60).

(** Exactly [n] digits, then [sep] unless it is [None]. *)
Definition field (n : nat) (sep : option ascii) (s : list ascii)
  : option (N * list ascii) :=
  match read_digits (firstn n s) 0%N 0%nat with
  | (v, count, []) =>
      if (count =? n)%nat then
        match sep, skipn n s with
        | None, rest => Some (v, rest)
        | Some c, c' :: rest => if Ascii.eqb c c' then Some (v, rest) else None
        | Some _, [] => None
        end
      else None
  | _ => None
  end.

Definition read_time (s : list ascii) : option time :=
  match s with
  | [] => Some midnight
  | " "%char :: s =>
      match field 2 (Some ":"%char) s with
      | Some (h, s) =>
          match field 2 (Some ":"%char) s with
          | Some (m, s) =>
              match field 2 None s with
              | Some (sec, []) =>
                  if ((h <? 24) && (m <? 60) && (sec <? 60))%N
                  then Some (h * 3600 + m * 60 + sec)%N
                  else None
              | _ => None
              end
          | None => None
          end
      | None => None
      end
  | _ => None
  end.

Definition read_datetime (s : string) : option (date * time) :=
  match field 4 (Some "-"%char) (list_ascii_of_string s) with
  | Some (y, s) =>
      match field 2 (Some "-"%char) s with
      | Some (m, s) =>
          match field 2 None s with
          | Some (d, s) =>
              if ((1 <=? m) && (m <=? 12) && (1 <=? d) && (d <=? 31))%N then
                match read_time s with
                | Some t => Some ({| year := y; month := m; day := d |}, t)
                | None => None
                end
              else None
          | None => None
          end
      | None => None
      end
  | None => None
  end.

End Reference.

Definition reference : platform :=
  {| str_to_float := Reference.read_float;
     csv_number := Reference.read_float;
     float_to_csv := Reference.write_float;
     date_to_csv := Reference.write_date;
     stamp_to_csv := Reference.write_stamp;
     csv_datetime := Reference.read_datetime |}.

(** ** Notions the statements use *)

Global Instance date_eq_dec : EqDecision date.
Proof. solve_decision. Defined.



(** The (date, category, description, amount) of a row, the date at
    calendar-date granularity: what [to_date] makes of it. *)
Definition fields (P : platform) (r : expense)
  : result date_cell * cell * cell * float :=
  (to_date P (Date r), Category r, Description r, Amount r).

(** The value [.dt.date] leaves for a date that converts. *)
Definition calendar_date (c : date_cell) : date_cell :=
  match c with
  | Stamp d _ => Day d
  | other => other
  end.

(** The Timestamp a written date is read back as. *)
Definition reread (c : date_cell) : date_cell :=
  match c with
  | Day d | Stamp d _ => Stamp d midnight
  | other => other
  end.

(** The [Category] or [Description] column of the frame read from a table:
    missing values when the header has no such column. *)
Definition text_column (P : platform) (header : list string)
    (rows : list (list string)) (name : string) : list cell :=
  match index_of name header with
  | Some k => infer_column P (column_at k rows)
  | None => repeat NA (length rows)
  end.

(** [save_expenses], then a new tracker built from the same path. *)
Definition save_then_load (P : platform) (io : io_outcome) : py unit :=
  save_expenses P io;;
  name ← get_filename;
  __init__ P name.

Definition round_trip (P : platform) (w : world) : Prop :=
  map (fields P) (expenses (self (snd (save_then_load P Written w))))
  = map (fields P) (expenses (self w)).

(** A text cell that [read_csv] gives back as it was written: a missing
    value, or a text that is not a missing-value marker, not numeric and
    not a Boolean word. *)
Definition kept_as_text (P : platform) (c : cell) : bool :=
  match c with
  | NA => true
  | Str s =>
      negb (na_text s) && negb (is_some (csv_number P s))
      && negb (is_some (bool_word s))
  | _ => false
  end.

(** A date whose written form reads back as that date. *)
Definition date_reads_back (P : platform) (c : date_cell) : bool :=
  match c with
  | NaT => true
  | Day d | Stamp d _ =>
      negb (na_text (date_to_csv P d))
      && bool_decide (csv_datetime P (date_to_csv P d) = Some (d, midnight))
  | Unparsed _ => false
  end.

(** An amount whose written form reads back as that amount. *)
Definition amount_reads_back (P : platform) (x : float) : bool :=
  Float.is_nan x
  || (negb (na_text (float_to_csv P x))
      && bool_decide (csv_number P (float_to_csv P x) = Some x)).

Definition storable (P : platform) (r : expense) : bool :=
  date_reads_back P (Date r) && kept_as_text P (Category r)
  && kept_as_text P (Description r) && amount_reads_back P (Amount r).

(** The message of [add_expense] when it adds nothing, by what
    [float(amount)] did. *)
Definition rejection (r : result float) : message :=
  match r with
  | Return _ => AmountMustBePositive
  | Raise ValueError => InvalidAmount
  | Raise e => UnexpectedAddError e
  end.



(** ** Sample data *)

Definition today : date := {| year := 2024; month := 5; day := 17 |}.

Definition path : string := "expenses.csv".

Definition entry (category : string) (amount : Z) : expense :=
  {| Date := Day today; Category := Str category; Description := Str "";
     Amount := Float.of_Z amount |}.

Definition food_rent : list expense :=
  [entry "Food" 10; entry "Food" 5; entry "Rent" 800].

Definition noted (category note : string) (amount : Z) : expense :=
  {| Date := Day today; Category := Str category; Description := Str note;
     Amount := Float.of_Z amount |}.

Definition food_rent_noted : list expense :=
  [noted "Food" "lunch" 10; noted "Food" "dinner, for two" 5;
   noted "Rent" "April" 800].

Definition ledger (df : list expense) : world :=
  {| self := {| filename := path; expenses := df |};
     disk := ∅; console := [] |}.

(** The tracker built when [path] holds [f]. *)
Definition loaded (f : file) : world :=
  snd (__init__ reference path (boot {[ path := f ]})).

(** The tracker built with no file, after one expense with a blank
    description. *)
Definition blank_description : world :=
  snd ((__init__ reference path;;
        add_expense reference today "food" "" (InText "5")) (boot ∅)).


Definition no_amount_file : file :=
  Table ["Date"; "Category"; "Description"] [["2024-01-01"; "Food"; "Lunch"]].




(** ** The menu: [main]

    [main] reads the terminal line by line.  The lines the user will type
    are [lines]; [input] on a terminal at its end raises EOFError.  The
    screen shows the prints of [main] and, between them, the messages of
    the tracker.  Each call of [add_expense] reads the clock: [clock n] is
    the date it finds when [n] typed lines are still unread.  [io] is what
    the environment does with the write of the one save of a session. *)

Inductive prompt :=
| AskChoice
| AskCategory
| AskDescription
| AskAmount.

Inductive screen_line :=
| Tracker (m : message)
| DependencyNote
| Menu
| Prompt (p : prompt)
| AddHeading
| Goodbye
| ExitingWithoutSaving
| InvalidChoice.

Record terminal := {
  object : tracker;
  files : gmap string file;
  screen : list screen_line
}.

Definition sh (A : Type) : Type := terminal -> result A * terminal.

Global Instance sh_ret : MRet sh := fun A a t => (Return a, t).

Global Instance sh_bind : MBind sh := fun A B k c t =>
  match c t with
  | (Return a, t') => k a t'
  | (Raise e, t') => (Raise e, t')
  end.

(** A [print] of [main]. *)
Definition show (l : screen_line) : sh unit :=
  fun t => (Return tt,
            {| object := object t; files := files t;
               screen := screen t ++ [l] |}).

(** A method call on [tracker]: its messages go to the screen. *)
Definition call {A} (c : py A) : sh A :=
  fun t =>
    let '(r, w) := c {| self := object t; disk := files t; console := [] |} in
    (r, {| object := self w; files := disk w;
           screen := screen t ++ map Tracker (console w) |}).

Definition EOFError : exn := Exception "EOFError".

(** [input(prompt)] with nothing left to read. *)
Definition end_of_input {A} (p : prompt) : sh A :=
  fun t => (Raise EOFError,
            {| object := object t; files := files t;
               screen := screen t ++ [Prompt p] |}).

Section Main.

Context (P : platform) (clock : nat -> date) (io : io_outcome).

(** Lines 152-192: the loop, from the top of one turn. *)
Fixpoint menu (lines : list string) : sh unit :=
  show Menu;;
  match lines with
  | [] => end_of_input AskChoice
  | choice :: rest =>
      show (Prompt AskChoice);;
      let choice := strip choice in
      if String.eqb choice "1" then
        show AddHeading;;
        match rest with
        | [] => end_of_input AskCategory
        | category :: rest =>
            show (Prompt AskCategory);;
            match rest with
            | [] => end_of_input AskDescription
            | description :: rest =>
                show (Prompt AskDescription);;
                match rest with
                | [] => end_of_input AskAmount
                | amount :: rest =>
                    show (Prompt AskAmount);;
                    call (add_expense P (clock (length rest)) category
                            description (InText amount));;
                    menu rest
                end
            end
        end
      else if String.eqb choice "2" then
        call view_all_expenses;; menu rest
      else if String.eqb choice "3" then
        call summarize_by_category;; menu rest
      else if String.eqb choice "4" then
        call visualize_expenses;; menu rest
      else if String.eqb choice "5" then
        call (save_expenses P io);; show Goodbye
      else if String.eqb choice "6" then
        show ExitingWithoutSaving
      else
        show InvalidChoice;; menu rest
  end.

(** Lines 146-192. *)
Definition main (lines : list string) : sh unit :=
  call (__init__ P "expenses.csv");;
  menu lines.

(** Lines 195-199. *)
Definition script (lines : list string) : sh unit :=
  show DependencyNote;;
  main lines.

End Main.

(** The terminal when the process starts. *)
Definition start (d : gmap string file) : terminal :=
  {| object := {| filename := ""; expenses := [] |}; files := d;
     screen := [] |}.

(** ** Notions of the further statements *)

(** [category.strip().capitalize()], line 52. *)
Definition normalize (category : string) : string :=
  capitalize (strip category).

(** Text of ASCII characters only: the texts on which [strip],
    [capitalize] and [lowercase] above are Python's. *)
Definition is_ascii (s : string) : bool :=
  forallb (fun c => (nat_of_ascii c <? 128)%nat) (list_ascii_of_string s).

(** An amount [add_expense] lets in: greater than 0, or NaN. *)
Definition admitted (x : float) : bool :=
  Float.ltb Float.zero x || Float.is_nan x.

(** What no operation changes in a row: everything but the date. *)
Definition core (r : expense) : cell * cell * float :=
  (Category r, Description r, Amount r).


(** A computation of the tracker that returns and changes nothing but the
    console. *)
Definition reads_only {A} (c : py A) : Prop :=
  forall w, exists a out,
    c w = (Return a,
           {| self := self w; disk := disk w; console := console w ++ out |}).

(** From [t] to [t'] the loop went on: the files are as they were, the
    rows that were there are followed by the rows that were added, the
    screen by what was shown. *)
Definition grown (t t' : terminal) : Prop :=
  filename (object t') = filename (object t)
  /\ (exists more, expenses (object t') = expenses (object t) ++ more)
  /\ files t' = files t
  /\ exists shown, screen t' = screen t ++ shown.

(** The three ways a session that began in [t] ends: the typed lines run
    out, the user leaves without saving, or the user saves and leaves. *)
Definition ends (P : platform) (io : io_outcome) (t : terminal)
    (o : result unit * terminal) : Prop :=
  (fst o = Raise EOFError /\ grown t (snd o))
  \/ (fst o = Return tt /\ grown t (snd o)
      /\ exists before, screen (snd o) = before ++ [ExitingWithoutSaving])
  \/ (exists t1,
        grown t t1 /\ o = (call (save_expenses P io);; show Goodbye) t1).




(** A file in which one date does not parse. *)
Definition bad_date_rows : list (list string) :=
  [["2024-01-01"; "Food"; "Lunch"; "12.5"];
   ["last Friday"; "Food"; "Dinner"; "30"]].

Definition bad_date_file : file := Table columns bad_date_rows.

(** * Properties *)

(** ** Order of binary64 values *)

Section FloatOrder.











End FloatOrder.

(** ** Sorting *)

Section Sorting.

Context {A : Type} (before : A -> A -> bool).



Context (R : A -> A -> Prop) (Q : A -> Prop).
Hypothesis before_R : forall x y, Q x -> Q y -> before y x = true -> R y x.
Hypothesis not_before_R :
  forall x y, Q x -> Q y -> before y x = false -> R x y.
Hypothesis R_trans :
  forall x y z, Q x -> Q y -> Q z -> R x y -> R y z -> R x z.



End Sorting.


(** ** Grouping and totals *)













(** ** [add_expense] *)

Lemma float_keeps_world (P : platform) (a : amount_input) (w : world) :
  snd (float_ P a w) = w.
Proof. destruct a; simpl; [destruct (str_to_float P s)|..]; reflexivity. Qed.



(** C2.  When [float(amount)] raises, or returns a value less than or equal
    to 0, [add_expense] returns without raising, prints the one message
    that says which check failed, and leaves the object and the disk as
    they were: no row is created. *)
Theorem add_expense_rejects (P : platform) (today : date)
    (category description : string) (amount : amount_input) (w : world) :
  (exists e, float_ P amount w = (Raise e, w))
  \/ (exists v, float_ P amount w = (Return v, w)
                /\ Float.leb v Float.zero = true) ->
  add_expense P today category description amount w
  = (Return tt,
     {| self := self w; disk := disk w;
        console := console w ++ [rejection (fst (float_ P amount w))] |}).
Proof.
  intros [[e He] | (v & Hv & Hle)];
    unfold add_expense, try_except, mbind, py_bind.
  - rewrite He. destruct e; reflexivity.
  - rewrite Hv, Hle. reflexivity.
Qed.

Lemma add_expense_rejects_witness :
  add_expense reference today "food" "lunch" (InText "-3") (ledger food_rent)
  = (Return tt,
     {| self := self (ledger food_rent); disk := ∅;
        console := [AmountMustBePositive] |})
  /\ add_expense reference today "food" "lunch" (InText "ten")
       (ledger food_rent)
     = (Return tt,
        {| self := self (ledger food_rent); disk := ∅;
           console := [InvalidAmount] |}).
Proof.
  split.
  - apply (add_expense_rejects reference today "food" "lunch" (InText "-3")
             (ledger food_rent)).
    right. exists (Float.of_decimal true 3 0). split; vm_compute; reflexivity.
  - apply (add_expense_rejects reference today "food" "lunch" (InText "ten")
             (ledger food_rent)).
    left. exists ValueError. vm_compute. reflexivity.
Defined.

(** ** [summarize_by_category] *)





(** ** [view_all_expenses] *)





(** ** [visualize_expenses] *)







(** ** Frames *)

Lemma frame_rows_columns (dates : list date_cell) (categories : list cell)
    (descriptions : list cell) (amounts : list float) :
  length categories = length dates ->
  length descriptions = length dates ->
  length amounts = length dates ->
  let rows := frame_rows dates categories descriptions amounts in
  map Date rows = dates /\ map Category rows = categories
  /\ map Description rows = descriptions /\ map Amount rows = amounts.
Proof.
  cbv zeta. unfold frame_rows.
  revert categories descriptions amounts.
  induction dates as [|d dates IH];
    intros [|c categories] [|s descriptions] [|a amounts];
    simpl; intros Hc Hs Ha; try discriminate; [repeat split|].
  destruct (IH categories descriptions amounts) as (E1 & E2 & E3 & E4);
    try congruence.
  now rewrite E1, E2, E3, E4.
Qed.


(** ** [save_expenses] *)

Section Save.

Context (P : platform).

Lemma to_dates_each (column dates : list date_cell) :
  to_dates P column = Return dates ->
  Forall2 (fun c c' => to_date P c = Return c') column dates.
Proof.
  revert dates. induction column as [|c column IH]; simpl; intros dates E.
  - inversion E. constructor.
  - destruct (to_date P c) eqn:Ec; [|discriminate].
    destruct (to_dates P column) eqn:Er; [|discriminate].
    inversion E; subst. constructor; auto.
Qed.

Lemma set_dates_columns (df : list expense) (dates : list date_cell) :
  length dates = length df ->
  map Date (set_dates df dates) = dates
  /\ map Category (set_dates df dates) = map Category df
  /\ map Description (set_dates df dates) = map Description df
  /\ map Amount (set_dates df dates) = map Amount df.
Proof.
  unfold set_dates. revert dates.
  induction df as [|r df IH]; intros [|d dates]; simpl; intros E;
    try discriminate; [repeat split|].
  destruct (IH dates) as (E1 & E2 & E3 & E4); [congruence|].
  now rewrite E1, E2, E3, E4.
Qed.


End Save.


(** ** [__init__] *)

(** The disk of a world that is written out. *)
Ltac see_disk :=
  repeat match goal with
    | |- context [disk {| self := ?s; disk := ?d; console := ?c |}] =>
        change (disk {| self := s; disk := d; console := c |}) with d
    end.

Section Init.

Context (P : platform).

Lemma infer_column_length (texts : list string) :
  length (infer_column P texts) = length texts.
Proof.
  unfold infer_column.
  repeat match goal with |- context [if ?b then _ else _] => destruct b end;
    apply length_map.
Qed.

Lemma parse_dates_length (texts : list string) :
  length (parse_dates P texts) = length texts.
Proof. unfold parse_dates. destruct (forallb _ _); apply length_map. Qed.

Lemma column_at_length (i : nat) (rows : list (list string)) :
  length (column_at i rows) = length rows.
Proof. apply length_map. Qed.

(** The columns of the frame, by name: the column of the first header
    cell with that name. *)
Lemma frame_column_from (rows : list (list string)) (name : string)
    (header : list string) (start : nat) :
  name <> "Date" ->
  assoc name
    (map (fun '(j, name) => (name, infer_column P (column_at j rows)))
       (List.filter (fun '(_, name) => negb (String.eqb name "Date"))
          (combine (seq start (length header)) header)))
  = option_map (fun j => infer_column P (column_at (start + j) rows))
      (index_of name header).
Proof.
  intros Hname. revert start.
  induction header as [|h header IH]; intros start;
    cbn [length seq combine List.filter index_of]; [reflexivity|].
  destruct (String.eqb_spec h "Date") as [->|Hh]; cbn [negb map assoc].
  - destruct (String.eqb_spec "Date" name) as [E|_]; [congruence|].
    rewrite IH. destruct (index_of name header); cbn [option_map];
      [|reflexivity].
    now rewrite Nat.add_succ_r.
  - destruct (String.eqb_spec h name) as [_|_]; cbn [option_map].
    + now rewrite Nat.add_0_r.
    + rewrite IH. destruct (index_of name header); cbn [option_map];
        [|reflexivity].
      now rewrite Nat.add_succ_r.
Qed.

Lemma text_column_length header rows name :
  length (text_column P header rows name) = length rows.
Proof.
  unfold text_column. destruct (index_of name header).
  - now rewrite infer_column_length, column_at_length.
  - apply repeat_length.
Qed.

(** Building the tracker from a table that has a [Date] and an [Amount]
    column. *)
Lemma init_table (name : string) (w : world) (header : list string)
    (rows : list (list string)) (i j : nat) :
  disk w !! name = Some (Table header rows) ->
  index_of "Date" header = Some i ->
  index_of "Amount" header = Some j ->
  __init__ P name w
  = (Return tt,
     {| self :=
          {| filename := name;
             expenses :=
               frame_rows (parse_dates P (column_at i rows))
                 (text_column P header rows "Category")
                 (text_column P header rows "Description")
                 (to_numeric P (infer_column P (column_at j rows))) |};
        disk := disk w;
        console := console w ++ [LoadedRecords (length rows)] |}).
Proof.
  destruct w as [[name0 df] d out]. cbn [disk console].
  intros Hfile Hi Hj.
  unfold __init__, try_except, mbind, py_bind, set_filename,
    os_path_exists, read_csv, getitem, to_records.
  cbn [self disk console filename expenses]. see_disk. rewrite Hfile.
  cbn [is_some]. see_disk. rewrite Hfile. unfold read_table. rewrite Hi.
  cbn [print frame_dates frame_columns self disk console mret py_ret
         filename expenses].
  rewrite !(frame_column_from rows _ header 0) by discriminate.
  rewrite Hj. cbn [option_map Nat.add raise set_expenses mret py_ret
                     self disk console filename expenses].
  rewrite parse_dates_length, column_at_length.
  unfold text_column.
  destruct (index_of "Category" header), (index_of "Description" header);
    reflexivity.
Qed.


(** What holds of C7: with no file at the path, with a file that has no
    columns, that cannot be read or that has no [Date] column, the
    tracker is built with no rows, and the reason is printed. *)
Lemma init_falls_back (name : string) (d : gmap string file) :
  let none (m : message) :=
    (Return tt,
     {| self := {| filename := name; expenses := [] |};
        disk := d; console := [m] |}) in
  match d !! name with
  | None => __init__ P name (boot d) = none NoExistingFile
  | Some Blank => __init__ P name (boot d) = none CsvFileEmpty
  | Some (Unreadable e) =>
      __init__ P name (boot d)
      = none match e with
             | EmptyDataError => CsvFileEmpty
             | _ => ErrorLoadingCsv e
             end
  | Some (Table header rows) =>
      index_of "Date" header = None ->
      __init__ P name (boot d) = none (ErrorLoadingCsv ValueError)
  end.
Proof.
  cbv zeta.
  unfold __init__, try_except, mbind, py_bind, set_filename,
    os_path_exists, read_csv, boot.
  cbn [self disk console filename expenses]. see_disk.
  destruct (d !! name) as [[e| |header rows]|] eqn:Hfile; cbn [is_some];
    see_disk; rewrite ?Hfile.
  - destruct e; reflexivity.
  - reflexivity.
  - intros Hdate. unfold read_table. rewrite Hdate. reflexivity.
  - reflexivity.
Qed.

(** The defect behind C7: a table with a [Date] column and no [Amount]
    column is read without error, and line 35, outside the [try], raises
    KeyError. *)
Lemma init_raises_without_amount (name : string) (d : gmap string file)
    (header : list string) (rows : list (list string)) (i : nat) :
  d !! name = Some (Table header rows) ->
  index_of "Date" header = Some i ->
  index_of "Amount" header = None ->
  fst (__init__ P name (boot d)) = Raise (KeyError "Amount").
Proof.
  intros Hfile Hi Hj.
  unfold __init__, try_except, mbind, py_bind, set_filename,
    os_path_exists, read_csv, getitem, boot.
  cbn [self disk console filename expenses]. see_disk. rewrite Hfile.
  cbn [is_some]. see_disk. rewrite Hfile. unfold read_table. rewrite Hi.
  cbn [print frame_dates frame_columns self disk console mret py_ret
         filename expenses].
  rewrite (frame_column_from rows _ header 0) by discriminate.
  rewrite Hj. reflexivity.
Qed.

End Init.


(** C7 fails on the code: with a file that has a header without [Amount]
    at the path, building the tracker raises KeyError. *)
Lemma init_raises_key_error :
  fst (__init__ reference path (boot {[ path := no_amount_file ]}))
  = Raise (KeyError "Amount").
Proof. vm_compute. reflexivity. Qed.

(** ** Saving, then loading *)

Section RoundTrip.

Context (P : platform).

Lemma to_dates_storable (df : list expense) :
  forallb (storable P) df = true ->
  to_dates P (map Date df) = Return (map calendar_date (map Date df)).
Proof.
  induction df as [|r df IH]; simpl; [reflexivity|].
  rewrite andb_true_iff. intros [Hr Hdf]. rewrite (IH Hdf).
  unfold storable in Hr. rewrite !andb_true_iff in Hr.
  destruct Hr as [[[Hd _] _] _].
  destruct (Date r); simpl in *; try reflexivity; discriminate.
Qed.

Lemma parse_dates_written (cs : list date_cell) :
  forallb (date_reads_back P) cs = true ->
  parse_dates P (map (date_text P) (map calendar_date cs)) = map reread cs.
Proof.
  intros Hcs. rewrite forallb_forall in Hcs.
  assert (Heach : forall c, In c cs ->
            let s := date_text P (calendar_date c) in
            (na_text s || is_some (csv_datetime P s) = true)
            /\ (if na_text s then NaT
                else match csv_datetime P s with
                     | Some (d, t) => Stamp d t
                     | None => NaT
                     end) = reread c).
  { intros c Hc. specialize (Hcs c Hc). cbv zeta.
    destruct c as [|d|d t|s]; cbn [calendar_date date_text reread];
      cbn [date_reads_back] in Hcs; try discriminate.
    - split; reflexivity.
    - apply andb_true_iff in Hcs as [Hna Hrd].
      apply negb_true_iff in Hna. apply bool_decide_eq_true in Hrd.
      rewrite Hna, Hrd. split; reflexivity.
    - apply andb_true_iff in Hcs as [Hna Hrd].
      apply negb_true_iff in Hna. apply bool_decide_eq_true in Hrd.
      rewrite Hna, Hrd. split; reflexivity. }
  unfold parse_dates. rewrite !map_map.
  replace (forallb _ _) with true.
  - apply map_ext_in. intros c Hc. apply (Heach c Hc).
  - symmetry. apply forallb_forall. intros s Hs.
    apply in_map_iff in Hs as (c & <- & Hc). apply (Heach c Hc).
Qed.

(** A column of texts that are kept as text is read back as it was. *)
Lemma infer_column_kept (cells : list cell) :
  forallb (kept_as_text P) cells = true ->
  infer_column P (map (cell_text P) cells) = cells.
Proof.
  intros Hcells. rewrite forallb_forall in Hcells.
  assert (Heach : forall c, In c cells ->
            c = NA
            \/ (exists s, c = Str s
                          /\ na_text s = false /\ csv_number P s = None
                          /\ bool_word s = None)).
  { intros c Hc. specialize (Hcells c Hc).
    destruct c as [|s|x|b]; cbn [kept_as_text] in Hcells;
      try discriminate; [left; reflexivity|].
    right. exists s. rewrite !andb_true_iff, !negb_true_iff in Hcells.
    destruct Hcells as [[Hna Hnum] Hbool].
    destruct (csv_number P s); [discriminate|].
    destruct (bool_word s); [discriminate|]. auto. }
  unfold infer_column.
  destruct (forallb _ (map _ cells)) eqn:Hnum;
    [|destruct (forallb (fun s => na_text s || is_some (bool_word s))
                 (map (cell_text P) cells)) eqn:Hbool].
  - rewrite forallb_forall in Hnum. rewrite map_map.
    rewrite <- (map_id cells) at 2. apply map_ext_in. intros c Hc.
    specialize (Hnum (cell_text P c) (in_map _ _ _ Hc)).
    destruct (Heach c Hc) as [-> | (s & -> & Hna & Hn & Hb)];
      [reflexivity|].
    cbn [cell_text] in Hnum. rewrite Hna, Hn in Hnum. discriminate.
  - rewrite forallb_forall in Hbool. rewrite map_map.
    rewrite <- (map_id cells) at 2. apply map_ext_in. intros c Hc.
    specialize (Hbool (cell_text P c) (in_map _ _ _ Hc)).
    destruct (Heach c Hc) as [-> | (s & -> & Hna & Hn & Hb)];
      [reflexivity|].
    cbn [cell_text] in Hbool. rewrite Hna, Hb in Hbool. discriminate.
  - rewrite map_map.
    rewrite <- (map_id cells) at 2. apply map_ext_in. intros c Hc.
    destruct (Heach c Hc) as [-> | (s & -> & Hna & Hn & Hb)];
      [reflexivity|].
    cbn [cell_text]. now rewrite Hna.
Qed.

(** A column of amounts that read back is read back as it was. *)
Lemma to_numeric_written (xs : list float) :
  forallb (amount_reads_back P) xs = true ->
  to_numeric P (infer_column P (map (fun x => cell_text P (Num x)) xs))
  = xs.
Proof.
  intros Hxs. rewrite forallb_forall in Hxs.
  assert (Heach : forall x, In x xs ->
            let s := cell_text P (Num x) in
            (na_text s || is_some (csv_number P s) = true)
            /\ coerce P (if na_text s then NA
                         else match csv_number P s with
                              | Some y => Num y
                              | None => NA
                              end) = x).
  { intros x Hx. specialize (Hxs x Hx). cbv zeta. cbn [cell_text].
    unfold amount_reads_back in Hxs.
    destruct (Float.is_nan x) eqn:Hnan.
    - destruct x; try discriminate. split; reflexivity.
    - cbn [orb] in Hxs. apply andb_true_iff in Hxs as [Hna Hrd].
      apply negb_true_iff in Hna. apply bool_decide_eq_true in Hrd.
      rewrite Hna, Hrd. split; reflexivity. }
  unfold infer_column. replace (forallb _ _) with true.
  - unfold to_numeric. rewrite !map_map.
    rewrite <- (map_id xs) at 2. apply map_ext_in. intros x Hx.
    apply (Heach x Hx).
  - symmetry. apply forallb_forall. intros s Hs.
    apply in_map_iff in Hs as (x & <- & Hx). apply (Heach x Hx).
Qed.

Lemma save_written (w : world) (dates : list date_cell) :
  to_dates P (map Date (expenses (self w))) = Return dates ->
  save_expenses P Written w
  = (Return tt,
     {| self := {| filename := filename (self w);
                   expenses := set_dates (expenses (self w)) dates |};
        disk :=
          <[filename (self w) :=
              Table columns
                (map (row_text P) (set_dates (expenses (self w)) dates))]>
            (disk w);
        console := console w ++ [SavedTo (filename (self w))] |}).
Proof.
  destruct w as [[name df] d out]. cbn [self expenses filename disk console].
  intros E.
  unfold save_expenses, try_except, mbind, py_bind, get_expenses, lift.
  cbn [self expenses]. rewrite E. reflexivity.
Qed.

Lemma to_date_reread (c : date_cell) : to_date P (reread c) = to_date P c.
Proof. destruct c; reflexivity. Qed.

Lemma forallb_column {A} (f : expense -> A) (ok : A -> bool)
    (df : list expense) :
  (forall r, storable P r = true -> ok (f r) = true) ->
  forallb (storable P) df = true -> forallb ok (map f df) = true.
Proof.
  intros Hok Hdf. rewrite forallb_forall in *. intros a Ha.
  apply in_map_iff in Ha as (r & <- & Hr). auto.
Qed.

(** The rows a tracker holds after its rows were saved and a new tracker
    was built from the file. *)
Lemma save_then_load_rows (w : world) :
  forallb (storable P) (expenses (self w)) = true ->
  save_then_load P Written w
  = (Return tt,
     {| self :=
          {| filename := filename (self w);
             expenses :=
               frame_rows (map reread (map Date (expenses (self w))))
                 (map Category (expenses (self w)))
                 (map Description (expenses (self w)))
                 (map Amount (expenses (self w))) |};
        disk :=
          <[filename (self w) :=
              Table columns
                (map (row_text P)
                   (set_dates (expenses (self w))
                      (map calendar_date (map Date (expenses (self w))))))]>
            (disk w);
        console :=
          (console w ++ [SavedTo (filename (self w))])
          ++ [LoadedRecords (length (expenses (self w)))] |}).
Proof.
  intros Hok. pose proof (to_dates_storable _ Hok) as Hdates.
  unfold save_then_load, mbind, py_bind at 1.
  rewrite (save_written w _ Hdates).
  unfold py_bind, get_filename. cbn [self filename].
  set (df := expenses (self w)) in *.
  set (df1 := set_dates df (map calendar_date (map Date df))).
  destruct (set_dates_columns df (map calendar_date (map Date df)))
    as (Ed & Ec & Es & Ea); [now rewrite !length_map|].
  fold df1 in Ed, Ec, Es, Ea.
  erewrite (init_table P _ _ columns (map (row_text P) df1) 0 3);
    [|apply lookup_insert_eq|reflexivity|reflexivity].
  cbn [self disk console filename expenses].
  assert (Hlen : length (map (row_text P) df1) = length df).
  { rewrite length_map, <- (length_map Category df1), Ec.
    apply length_map. }
  rewrite Hlen. do 3 f_equal. f_equal.
  - unfold column_at. rewrite map_map. cbn [row_text nth].
    rewrite <- (map_map Date (date_text P)), Ed.
    apply parse_dates_written.
    apply (forallb_column Date); [|exact Hok].
    intros r Hr. unfold storable in Hr. rewrite !andb_true_iff in Hr. tauto.
  - unfold text_column.
    change (index_of "Category" columns) with (Some 1%nat).
    unfold column_at. rewrite map_map. cbn [row_text nth].
    rewrite <- (map_map Category (cell_text P)), Ec.
    apply infer_column_kept.
    apply (forallb_column Category); [|exact Hok].
    intros r Hr. unfold storable in Hr. rewrite !andb_true_iff in Hr. tauto.
  - unfold text_column.
    change (index_of "Description" columns) with (Some 2%nat).
    unfold column_at. rewrite map_map. cbn [row_text nth].
    rewrite <- (map_map Description (cell_text P)), Es.
    apply infer_column_kept.
    apply (forallb_column Description); [|exact Hok].
    intros r Hr. unfold storable in Hr. rewrite !andb_true_iff in Hr. tauto.
  - unfold column_at. rewrite map_map. cbn [row_text nth].
    rewrite <- (map_map Amount (fun x => cell_text P (Num x))), Ea.
    apply to_numeric_written.
    apply (forallb_column Amount); [|exact Hok].
    intros r Hr. unfold storable in Hr. rewrite !andb_true_iff in Hr. tauto.
Qed.

Lemma fields_columns (df1 df2 : list expense) :
  map (to_date P) (map Date df1) = map (to_date P) (map Date df2) ->
  map Category df1 = map Category df2 ->
  map Description df1 = map Description df2 ->
  map Amount df1 = map Amount df2 ->
  map (fields P) df1 = map (fields P) df2.
Proof.
  revert df2.
  induction df1 as [|r1 df1 IH]; intros [|r2 df2]; simpl;
    intros Hd Hc Hs Ha; try discriminate; [reflexivity|].
  inversion Hd; inversion Hc; inversion Hs; inversion Ha.
  unfold fields at 1 3. f_equal; [congruence|]. now apply IH.
Qed.

(** C3, as the code has it.  When the write goes through and every row
    can be stored (its date is missing or reads back from its written
    form, its category and its description are missing or texts that
    [read_csv] keeps as text, its amount is NaN or reads back from its
    written form), [save_expenses] and then a new tracker built from the
    same path return without raising, and the new tracker has the rows of
    the old one in the same order: the same category, description and
    amount, and the same date at calendar-date granularity. *)
Theorem save_then_load_round_trip (w : world) :
  forallb (storable P) (expenses (self w)) = true ->
  fst (save_then_load P Written w) = Return tt
  /\ round_trip P w
  /\ length (expenses (self (snd (save_then_load P Written w))))
     = length (expenses (self w)).
Proof.
  intros Hok. unfold round_trip.
  rewrite (save_then_load_rows w Hok). cbn [fst snd self expenses].
  destruct (frame_rows_columns
              (map reread (map Date (expenses (self w))))
              (map Category (expenses (self w)))
              (map Description (expenses (self w)))
              (map Amount (expenses (self w))))
    as (Ed & Ec & Es & Ea); rewrite ?length_map; auto.
  split; [reflexivity|]. split.
  - apply fields_columns; auto.
    rewrite Ed, !map_map. apply map_ext. intros r. apply to_date_reread.
  - rewrite <- (length_map Category), Ec. apply length_map.
Qed.

End RoundTrip.

Lemma save_then_load_round_trip_witness :
  round_trip reference
    (snd (add_expense reference today "rent" "May" (InText "800.10")
            (ledger food_rent_noted))).
Proof.
  apply (save_then_load_round_trip reference
           (snd (add_expense reference today "rent" "May" (InText "800.10")
                   (ledger food_rent_noted)))).
  vm_compute. reflexivity.
Defined.

(** C3 as stated fails: a tracker with one expense whose description was
    left blank is saved, and the tracker built from the file has a missing
    value for the description. *)
Lemma save_then_load_loses_blank_description :
  ~ round_trip reference blank_description.
Proof. unfold round_trip. vm_compute. discriminate. Qed.

(** * Further properties *)

(** ** What [add_expense] lets in *)

(** The test of line 45 refuses exactly the amounts that are not
    [admitted]. *)
Lemma leb_zero_admitted (v : float) :
  Float.leb v Float.zero = negb (admitted v).
Proof. destruct v as [[]|[]| |[] m e]; reflexivity. Qed.

Lemma add_expense_admits (P : platform) (today : date)
    (category description : string) (amount : amount_input) (w : world)
    (v : float) :
  float_ P amount w = (Return v, w) ->
  admitted v = true ->
  add_expense P today category description amount w
  = (Return tt,
     {| self :=
          {| filename := filename (self w);
             expenses :=
               expenses (self w)
               ++ [{| Date := Day today;
                      Category := Str (normalize category);
                      Description := Str (strip description);
                      Amount := v |}] |};
        disk := disk w;
        console :=
          console w
          ++ [AddedExpense category description (Float.fixed2 false v)] |}).
Proof.
  intros Hv Hin.
  unfold add_expense, try_except, mbind, py_bind.
  rewrite Hv, leb_zero_admitted, Hin. reflexivity.
Qed.

Lemma add_expense_refuses (P : platform) (today : date)
    (category description : string) (amount : amount_input) (w : world) :
  match fst (float_ P amount w) with
  | Return v => admitted v = false
  | Raise _ => True
  end ->
  add_expense P today category description amount w
  = (Return tt,
     {| self := self w; disk := disk w;
        console := console w ++ [rejection (fst (float_ P amount w))] |}).
Proof.
  pose proof (float_keeps_world P amount w) as Hw.
  destruct (float_ P amount w) as [[v|e] w'] eqn:E; cbn [fst snd] in *;
    subst w'; intros Hout;
    unfold add_expense, try_except, mbind, py_bind; rewrite E.
  - rewrite leb_zero_admitted, Hout. reflexivity.
  - destruct e; reflexivity.
Qed.




(** ** Normalizing a category *)

Section Normalize.

Lemma space_upper (c : ascii) : is_space (upper c) = is_space c.
Proof. destruct c as [[] [] [] [] [] [] [] []]; reflexivity. Qed.

Lemma space_lower (c : ascii) : is_space (lower c) = is_space c.
Proof. destruct c as [[] [] [] [] [] [] [] []]; reflexivity. Qed.

Lemma upper_upper (c : ascii) : upper (upper c) = upper c.
Proof. destruct c as [[] [] [] [] [] [] [] []]; reflexivity. Qed.

Lemma lower_lower (c : ascii) : lower (lower c) = lower c.
Proof. destruct c as [[] [] [] [] [] [] [] []]; reflexivity. Qed.

Lemma upper_lower (c : ascii) : upper (lower c) = upper c.
Proof. destruct c as [[] [] [] [] [] [] [] []]; reflexivity. Qed.

Lemma lowercase_lowercase (s : string) : lowercase (lowercase s) = lowercase s.
Proof.
  induction s as [|c s IH]; simpl; [reflexivity|].
  now rewrite lower_lower, IH.
Qed.

Lemma capitalize_lowercase (s : string) :
  capitalize (lowercase s) = capitalize s.
Proof.
  destruct s as [|c s]; simpl; [reflexivity|].
  now rewrite upper_lower, lowercase_lowercase.
Qed.

Lemma capitalize_capitalize (s : string) :
  capitalize (capitalize s) = capitalize s.
Proof.
  destruct s as [|c s]; simpl; [reflexivity|].
  now rewrite upper_upper, lowercase_lowercase.
Qed.

(** Whether a text begins with white space, read on its characters. *)
Lemma lstrip_length (s : string) : String.length (lstrip s) <= String.length s.
Proof.
  induction s as [|c s IH]; simpl; [lia|].
  destruct (is_space c); simpl; lia.
Qed.

Lemma lstrip_fixed (s : string) :
  lstrip s = s <-> is_space (hd "a"%char (list_ascii_of_string s)) = false.
Proof.
  destruct s as [|c s]; simpl; [tauto|].
  destruct (is_space c) eqn:E; [|tauto].
  split; [|discriminate]. intros H.
  pose proof (lstrip_length s) as Hlen. rewrite H in Hlen. simpl in Hlen. lia.
Qed.

Lemma lstrip_clean (s : string) :
  is_space (hd "a"%char (list_ascii_of_string (lstrip s))) = false.
Proof.
  induction s as [|c s IH]; simpl; [reflexivity|].
  destruct (is_space c) eqn:E; [exact IH|]. simpl. exact E.
Qed.

Lemma lstrip_keeps_last (s : string) (m : list ascii) (c : ascii) :
  is_space c = false ->
  list_ascii_of_string s = m ++ [c] ->
  exists m', list_ascii_of_string (lstrip s) = m' ++ [c].
Proof.
  intros Hc. revert m. induction s as [|a s IH]; intros m Hs; simpl in *.
  - now destruct m.
  - destruct (is_space a) eqn:Ea; [|now exists m].
    destruct m as [|a' m]; simpl in Hs.
    + inversion Hs; subst. congruence.
    + inversion Hs; subst. eapply IH. eassumption.
Qed.

Lemma list_of_reverse (s : string) :
  list_ascii_of_string (reverse s) = rev (list_ascii_of_string s).
Proof. unfold reverse. apply list_ascii_of_string_of_list_ascii. Qed.

Lemma reverse_reverse (s : string) : reverse (reverse s) = s.
Proof.
  unfold reverse.
  now rewrite list_ascii_of_string_of_list_ascii, rev_involutive,
    string_of_list_ascii_of_string.
Qed.

(** A stripped text has no white space at either end. *)
Lemma strip_clean (s : string) :
  is_space (hd "a"%char (list_ascii_of_string (strip s))) = false
  /\ is_space (hd "a"%char (rev (list_ascii_of_string (strip s)))) = false.
Proof.
  unfold strip. rewrite list_of_reverse. split.
  - pose proof (lstrip_clean s) as Ha.
    destruct (list_ascii_of_string (lstrip s)) as [|c t] eqn:E.
    + assert (Hs : lstrip s = "")
        by now rewrite <- (string_of_list_ascii_of_string (lstrip s)), E.
      now rewrite Hs.
    + simpl in Ha.
      destruct (lstrip_keeps_last (reverse (lstrip s)) (rev t) c Ha)
        as [m' ->]; [now rewrite list_of_reverse, E|].
      now rewrite rev_app_distr.
  - rewrite rev_involutive. apply lstrip_clean.
Qed.

Lemma strip_fixed (s : string) :
  is_space (hd "a"%char (list_ascii_of_string s)) = false ->
  is_space (hd "a"%char (rev (list_ascii_of_string s))) = false ->
  strip s = s.
Proof.
  intros H1 H2. unfold strip.
  rewrite (proj2 (lstrip_fixed s) H1).
  rewrite (proj2 (lstrip_fixed (reverse s))); [apply reverse_reverse|].
  now rewrite list_of_reverse.
Qed.

Lemma head_space (l : list ascii) :
  is_space (hd "a"%char l) = hd false (map is_space l).
Proof. now destruct l. Qed.

Lemma lowercase_spaces (s : string) :
  map is_space (list_ascii_of_string (lowercase s))
  = map is_space (list_ascii_of_string s).
Proof.
  induction s as [|c s IH]; simpl; [reflexivity|].
  now rewrite space_lower, IH.
Qed.

Lemma capitalize_spaces (s : string) :
  map is_space (list_ascii_of_string (capitalize s))
  = map is_space (list_ascii_of_string s).
Proof.
  destruct s as [|c s]; simpl; [reflexivity|].
  now rewrite space_upper, lowercase_spaces.
Qed.

(** X3.  Normalizing a category of ASCII text twice is normalizing it
    once: a category typed as the tracker shows it goes to the group it is
    shown in. *)
Theorem normalize_idempotent (category : string) :
  is_ascii category = true ->
  normalize (normalize category) = normalize category.
Proof.
  intros _. unfold normalize.
  destruct (strip_clean category) as [H1 H2].
  rewrite (strip_fixed (capitalize (strip category))).
  - apply capitalize_capitalize.
  - now rewrite head_space, capitalize_spaces, <- head_space.
  - now rewrite head_space, map_rev, capitalize_spaces, <- map_rev,
      <- head_space.
Qed.

(** X4.  The normalized category of ASCII text does not depend on the case
    of the letters or on white space around the text: two inputs that are
    the same once stripped and put in lower case get the same category. *)
Theorem normalize_ignores_case (a b : string) :
  is_ascii a = true -> is_ascii b = true ->
  lowercase (strip a) = lowercase (strip b) -> normalize a = normalize b.
Proof.
  intros _ _ H. unfold normalize.
  now rewrite <- (capitalize_lowercase (strip a)), H, capitalize_lowercase.
Qed.

End Normalize.

Lemma normalize_idempotent_witness :
  normalize (normalize "  fOOD ") = normalize "  fOOD ".
Proof. apply (normalize_idempotent "  fOOD "). reflexivity. Defined.

Lemma normalize_ignores_case_witness :
  normalize "  gROCERIES" = normalize "Groceries  ".
Proof.
  apply (normalize_ignores_case "  gROCERIES" "Groceries  "); reflexivity.
Defined.

(** ** Totals after an expense is added *)





(** ** Rows without a category *)





(** ** More on [save_expenses] *)

Section SaveMore.

Context (P : platform).

Lemma to_date_settled (c c' : date_cell) :
  to_date P c = Return c' -> to_date P c' = Return c'.
Proof.
  destruct c as [|d|d t|s]; simpl; try (intros E; inversion E; reflexivity).
  destruct (csv_datetime P s) as [[d t]|]; intros E; inversion E. reflexivity.
Qed.

Lemma to_dates_settled (column dates : list date_cell) :
  to_dates P column = Return dates -> to_dates P dates = Return dates.
Proof.
  intros E. apply to_dates_each in E.
  induction E as [|c c' column dates Hc _ IH]; simpl; [reflexivity|].
  now rewrite (to_date_settled c c' Hc), IH.
Qed.

Lemma set_dates_twice (df : list expense) (dates : list date_cell) :
  set_dates (set_dates df dates) dates = set_dates df dates.
Proof.
  unfold set_dates. revert dates.
  induction df as [|r df IH]; intros [|d dates]; simpl; try reflexivity.
  now rewrite IH.
Qed.

Lemma save_unconvertible (io : io_outcome) (w : world) (e : exn) :
  to_dates P (map Date (expenses (self w))) = Raise e ->
  save_expenses P io w
  = (Return tt,
     {| self := self w; disk := disk w;
        console := console w ++ [FailedToSave e] |}).
Proof.
  destruct w as [[name df] d out]. cbn [self expenses disk console].
  intros E.
  unfold save_expenses, try_except, mbind, py_bind, get_expenses, lift.
  cbn [self expenses]. rewrite E. reflexivity.
Qed.

Lemma save_write_error (w : world) (dates : list date_cell) (e : exn)
    (residue : option file) :
  to_dates P (map Date (expenses (self w))) = Return dates ->
  save_expenses P (WriteError e residue) w
  = (Return tt,
     {| self := {| filename := filename (self w);
                   expenses := set_dates (expenses (self w)) dates |};
        disk := match residue with
                | Some f => <[filename (self w) := f]> (disk w)
                | None => delete (filename (self w)) (disk w)
                end;
        console := console w ++ [FailedToSave e] |}).
Proof.
  destruct w as [[name df] d out]. cbn [self expenses filename disk console].
  intros E.
  unfold save_expenses, try_except, mbind, py_bind, get_expenses, lift.
  cbn [self expenses]. rewrite E. reflexivity.
Qed.

(** X7.  Saving twice is saving once: after a save whose write went
    through, a second save leaves the rows in memory and the whole disk as
    the first one left them. *)
Theorem save_expenses_idempotent (w : world) :
  let w1 := snd (save_expenses P Written w) in
  let w2 := snd (save_expenses P Written w1) in
  self w2 = self w1 /\ disk w2 = disk w1.
Proof.
  cbv zeta.
  destruct (to_dates P (map Date (expenses (self w)))) as [dates|e] eqn:E.
  - rewrite (save_written P w dates E). cbn [snd].
    assert (Hlen : length dates = length (expenses (self w))).
    { apply to_dates_each, Forall2_length in E.
      now rewrite length_map in E. }
    destruct (set_dates_columns (expenses (self w)) dates Hlen) as (Ed & _).
    erewrite save_written;
      [|cbn [self expenses]; rewrite Ed; eapply to_dates_settled, E].
    cbn [snd self disk filename expenses].
    rewrite set_dates_twice, insert_insert_eq. split; reflexivity.
  - rewrite (save_unconvertible Written w e E). cbn [snd].
    rewrite (save_unconvertible Written
               {| self := self w; disk := disk w;
                  console := console w ++ [FailedToSave e] |} e E).
    split; reflexivity.
Qed.

(** X8.  [save_expenses] touches no file but its own: whatever the write
    does, every other path of the disk holds what it held. *)
Theorem save_expenses_touches_one_file (io : io_outcome) (w : world)
    (other : string) :
  other <> filename (self w) ->
  disk (snd (save_expenses P io w)) !! other = disk w !! other.
Proof.
  intros Hother.
  destruct (to_dates P (map Date (expenses (self w)))) as [dates|e] eqn:E.
  - destruct io as [|e residue].
    + rewrite (save_written P w dates E). cbn [snd disk].
      now rewrite lookup_insert_ne.
    + rewrite (save_write_error w dates e residue E). cbn [snd disk].
      destruct residue; [now rewrite lookup_insert_ne|].
      now rewrite lookup_delete_ne.
  - now rewrite (save_unconvertible io w e E).
Qed.

End SaveMore.

Lemma save_expenses_touches_one_file_witness :
  disk (snd (save_expenses reference Written
               {| self := {| filename := path; expenses := food_rent |};
                  disk := {[ "notes.txt" := Blank ]}; console := [] |}))
  !! "notes.txt"
  = Some Blank.
Proof.
  rewrite (save_expenses_touches_one_file reference Written
             {| self := {| filename := path; expenses := food_rent |};
                disk := {[ "notes.txt" := Blank ]}; console := [] |}
             "notes.txt");
    [vm_compute; reflexivity | vm_compute; discriminate].
Defined.

(** ** More on [__init__] *)

Section InitMore.

Context (P : platform).

Lemma init_without_amount (name : string) (d : gmap string file)
    (header : list string) (rows : list (list string)) (i : nat) :
  d !! name = Some (Table header rows) ->
  index_of "Date" header = Some i ->
  index_of "Amount" header = None ->
  __init__ P name (boot d)
  = (Raise (KeyError "Amount"),
     {| self := {| filename := name; expenses := [] |};
        disk := d; console := [LoadedRecords (length rows)] |}).
Proof.
  intros Hfile Hi Hj.
  unfold __init__, try_except, mbind, py_bind, set_filename,
    os_path_exists, read_csv, getitem, boot.
  cbn [self disk console filename expenses]. see_disk. rewrite Hfile.
  cbn [is_some]. see_disk. rewrite Hfile. unfold read_table. rewrite Hi.
  cbn [print frame_dates frame_columns self disk console mret py_ret
         filename expenses].
  rewrite (frame_column_from P rows _ header 0) by discriminate.
  rewrite Hj, parse_dates_length, column_at_length. reflexivity.
Qed.

(** X9.  Building the tracker never writes: the disk is as it was, also
    when building raises.  It raises in one case only, KeyError on
    ['Amount'], when the file is a table with a [Date] column and no
    [Amount] column; in every other case it returns, with the file name
    set. *)
Theorem init_raises_only_without_amount (name : string)
    (d : gmap string file) :
  let outcome := __init__ P name (boot d) in
  disk (snd outcome) = d
  /\ filename (self (snd outcome)) = name
  /\ fst outcome
     = match d !! name with
       | Some (Table header rows) =>
           if is_some (index_of "Date" header)
              && negb (is_some (index_of "Amount" header))
           then Raise (KeyError "Amount")
           else Return tt
       | _ => Return tt
       end.
Proof.
  cbv zeta. pose proof (init_falls_back P name d) as Hback.
  cbv zeta in Hback.
  destruct (d !! name) as [[e| |header rows]|] eqn:Hfile.
  - rewrite Hback. repeat split.
  - rewrite Hback. repeat split.
  - destruct (index_of "Date" header) as [i|] eqn:Hi;
      [|rewrite (Hback eq_refl); repeat split].
    destruct (index_of "Amount" header) as [j|] eqn:Hj;
      cbn [is_some andb negb].
    + rewrite (init_table P name (boot d) header rows i j Hfile Hi Hj).
      repeat split.
    + rewrite (init_without_amount name d header rows i Hfile Hi Hj).
      repeat split.
  - rewrite Hback. repeat split.
Qed.

End InitMore.

(** ** The menu *)

Section Menu.

Context (P : platform) (clock : nat -> date) (io : io_outcome).

Lemma view_reads_only : reads_only view_all_expenses.
Proof.
  intros [[name df] d out].
  unfold view_all_expenses, mbind, py_bind, get_expenses, print.
  cbn [self expenses disk console].
  destruct df; cbn [empty]; eexists _, [_]; reflexivity.
Qed.

Lemma summarize_reads_only : reads_only summarize_by_category.
Proof.
  intros [[name df] d out].
  unfold summarize_by_category, mbind, py_bind, get_expenses, print.
  cbn [self expenses disk console].
  destruct df; cbn [empty]; eexists _, [_]; reflexivity.
Qed.

Lemma visualize_reads_only : reads_only visualize_expenses.
Proof.
  intros [[name df] d out].
  unfold visualize_expenses, mbind, py_bind, get_expenses, print.
  cbn [self expenses disk console].
  destruct df as [|r df]; cbn [empty]; [eexists _, [_]; reflexivity|].
  destruct (category_totals (r :: df)); cbn [empty];
    [eexists _, [_]; reflexivity|].
  eexists _, [_; _]. cbn [self disk console]. now rewrite <- app_assoc.
Qed.

Lemma grown_refl (t : terminal) : grown t t.
Proof.
  repeat split; [exists []|exists []]; now rewrite app_nil_r.
Qed.

Lemma grown_trans (t1 t2 t3 : terminal) :
  grown t1 t2 -> grown t2 t3 -> grown t1 t3.
Proof.
  intros (Hn & [m Hm] & Hf & [s Hs]) (Hn' & [m' Hm'] & Hf' & [s' Hs']).
  repeat split; try congruence.
  - exists (m ++ m'). now rewrite Hm', Hm, app_assoc.
  - exists (s ++ s'). now rewrite Hs', Hs, app_assoc.
Qed.

Lemma grown_show (l : screen_line) (t : terminal) :
  grown t (snd (show l t)).
Proof.
  repeat split; cbn; [exists []; now rewrite app_nil_r|now exists [l]].
Qed.

Lemma call_reads_only {A} (c : py A) (t : terminal) :
  reads_only c ->
  exists a, fst (call c t) = Return a /\ grown t (snd (call c t)).
Proof.
  intros Hc. unfold call.
  destruct (Hc {| self := object t; disk := files t; console := [] |})
    as (a & out & ->).
  exists a. split; [reflexivity|]. cbn.
  repeat split; [exists []; now rewrite app_nil_r|eauto].
Qed.

Lemma add_expense_outcome (today : date) (category description : string)
    (amount : amount_input) (w : world) :
  exists added m,
    add_expense P today category description amount w
    = (Return tt,
       {| self := {| filename := filename (self w);
                     expenses := expenses (self w) ++ added |};
          disk := disk w;
          console := console w ++ [m] |}).
Proof.
  pose proof (float_keeps_world P amount w) as Hw.
  destruct (float_ P amount w) as [[v|e] w'] eqn:E; cbn [snd] in Hw; subst w';
    [destruct (admitted v) eqn:Hin|].
  - eexists _, _. apply (add_expense_admits _ _ _ _ _ _ v E Hin).
  - exists [], AmountMustBePositive.
    rewrite add_expense_refuses; rewrite E; cbn [fst]; [|exact Hin].
    rewrite app_nil_r. now destruct w as [[name df] d out].
  - exists [], (rejection (Raise e)).
    rewrite add_expense_refuses; rewrite E; cbn [fst]; [|exact I].
    rewrite app_nil_r. now destruct w as [[name df] d out].
Qed.

Lemma call_add_expense (today : date) (category description : string)
    (amount : amount_input) (t : terminal) :
  fst (call (add_expense P today category description amount) t) = Return tt
  /\ grown t (snd (call (add_expense P today category description amount) t)).
Proof.
  unfold call.
  destruct (add_expense_outcome today category description amount
              {| self := object t; disk := files t; console := [] |})
    as (added & m & ->).
  split; [reflexivity|]. cbn. repeat split; eauto.
Qed.

Lemma core_columns (df1 df2 : list expense) :
  map Category df1 = map Category df2 ->
  map Description df1 = map Description df2 ->
  map Amount df1 = map Amount df2 ->
  map core df1 = map core df2.
Proof.
  revert df2.
  induction df1 as [|r1 df1 IH]; intros [|r2 df2]; simpl;
    intros Hc Hs Ha; try discriminate; [reflexivity|].
  inversion Hc; inversion Hs; inversion Ha.
  unfold core at 1 3. f_equal; [congruence|]. now apply IH.
Qed.

(** What the save at the end of a session does to the terminal. *)
Lemma call_save_expenses (t : terminal) :
  let o := (call (save_expenses P io);; show Goodbye) t in
  fst o = Return tt
  /\ filename (object (snd o)) = filename (object t)
  /\ map core (expenses (object (snd o))) = map core (expenses (object t))
  /\ (exists before, screen (snd o) = before ++ [Goodbye])
  /\ forall other,
       other <> filename (object t) ->
       files (snd o) !! other = files t !! other.
Proof.
  cbv zeta. unfold mbind, sh_bind, call, show.
  set (w := {| self := object t; disk := files t; console := [] |}).
  assert (Hcore : forall dates,
             length dates = length (expenses (object t)) ->
             map core (set_dates (expenses (object t)) dates)
             = map core (expenses (object t))).
  { intros dates Hlen.
    destruct (set_dates_columns (expenses (object t)) dates Hlen)
      as (_ & Ec & Es & Ea).
    now apply core_columns. }
  destruct (to_dates P (map Date (expenses (self w)))) as [dates|e] eqn:E.
  - assert (Hlen : length dates = length (expenses (object t))).
    { apply to_dates_each, Forall2_length in E.
      now rewrite length_map in E. }
    destruct io as [|e residue].
    + rewrite (save_written P w dates E). cbn.
      repeat split; eauto.
      intros other Hother. now rewrite lookup_insert_ne.
    + rewrite (save_write_error P w dates e residue E). cbn.
      repeat split; eauto.
      intros other Hother.
      destruct residue; [now rewrite lookup_insert_ne|].
      now rewrite lookup_delete_ne.
  - rewrite (save_unconvertible P io w e E). cbn. repeat split; eauto.
Qed.

Lemma ends_later (t t1 : terminal) (o : result unit * terminal) :
  grown t t1 -> ends P io t1 o -> ends P io t o.
Proof.
  intros Ht [[Hr Hg] | [(Hr & Hg & Hs) | (t2 & Hg & Ho)]].
  - left. split; [exact Hr|]. exact (grown_trans _ _ _ Ht Hg).
  - right; left. split; [exact Hr|].
    split; [exact (grown_trans _ _ _ Ht Hg)|exact Hs].
  - right; right. exists t2. split; [|exact Ho].
    exact (grown_trans _ _ _ Ht Hg).
Qed.

Lemma menu_turn (lines : list string) :
  menu P clock io lines
  = (show Menu;;
     match lines with
     | [] => end_of_input AskChoice
     | choice :: rest =>
         show (Prompt AskChoice);;
         let choice := strip choice in
         if String.eqb choice "1" then
           show AddHeading;;
           match rest with
           | [] => end_of_input AskCategory
           | category :: rest =>
               show (Prompt AskCategory);;
               match rest with
               | [] => end_of_input AskDescription
               | description :: rest =>
                   show (Prompt AskDescription);;
                   match rest with
                   | [] => end_of_input AskAmount
                   | amount :: rest =>
                       show (Prompt AskAmount);;
                       call (add_expense P (clock (length rest)) category
                               description (InText amount));;
                       menu P clock io rest
                   end
               end
           end
         else if String.eqb choice "2" then
           call view_all_expenses;; menu P clock io rest
         else if String.eqb choice "3" then
           call summarize_by_category;; menu P clock io rest
         else if String.eqb choice "4" then
           call visualize_expenses;; menu P clock io rest
         else if String.eqb choice "5" then
           call (save_expenses P io);; show Goodbye
         else if String.eqb choice "6" then
           show ExitingWithoutSaving
         else
           show InvalidChoice;; menu P clock io rest
     end).
Proof. destruct lines; reflexivity. Qed.

(** One [print] of [main], then the rest. *)
Lemma ends_show (l : screen_line) (k : sh unit) (t : terminal) :
  ends P io (snd (show l t)) (k (snd (show l t))) ->
  ends P io t ((show l;; k) t).
Proof.
  intros H. apply (ends_later t (snd (show l t))); [apply grown_show|].
  exact H.
Qed.

Lemma ends_input (p : prompt) (t : terminal) :
  ends P io t (end_of_input p t).
Proof.
  left. split; [reflexivity|].
  repeat split; cbn; [exists []; now rewrite app_nil_r|now exists [Prompt p]].
Qed.

(** One call that lets the loop go on, then the rest. *)
Lemma ends_call {A} (c : py A) (k : sh unit) (t : terminal) :
  (exists a, fst (call c t) = Return a /\ grown t (snd (call c t))) ->
  (forall t1, grown t t1 -> ends P io t1 (k t1)) ->
  ends P io t ((call c;; k) t).
Proof.
  intros (a & Hr & Hg) Hk. unfold mbind, sh_bind.
  destruct (call c t) as [r t1]. cbn [fst snd] in *. subst r.
  apply (ends_later t t1 _ Hg). now apply Hk.
Qed.

Lemma menu_ends (n : nat) :
  forall lines t, length lines <= n ->
    ends P io t (menu P clock io lines t).
Proof.
  induction n as [|n IH]; intros lines t Hlen; rewrite menu_turn;
    apply ends_show.
  - destruct lines; [apply ends_input|simpl in Hlen; lia].
  - destruct lines as [|choice rest]; [apply ends_input|].
    simpl in Hlen. apply ends_show. cbv zeta.
    assert (Hrest : forall t1, ends P io t1 (menu P clock io rest t1))
      by (intros t1; apply IH; lia).
    destruct (String.eqb (strip choice) "1").
    { apply ends_show.
      destruct rest as [|category rest]; [apply ends_input|].
      apply ends_show.
      destruct rest as [|description rest]; [apply ends_input|].
      apply ends_show.
      destruct rest as [|amount rest]; [apply ends_input|].
      apply ends_show. apply ends_call.
      - destruct (call_add_expense (clock (length rest)) category
                    description (InText amount)
                    (snd (show (Prompt AskAmount)
                            (snd (show (Prompt AskDescription)
                                    (snd (show (Prompt AskCategory)
                                            (snd (show AddHeading
                                                    (snd (show
                                                      (Prompt AskChoice)
                                                      (snd (show Menu t)))))))))))))
          as [Hr Hg].
        eauto.
      - intros t1 _. apply IH. simpl in Hlen. lia. }
    destruct (String.eqb (strip choice) "2").
    { apply ends_call; [apply call_reads_only, view_reads_only|auto]. }
    destruct (String.eqb (strip choice) "3").
    { apply ends_call; [apply call_reads_only, summarize_reads_only|auto]. }
    destruct (String.eqb (strip choice) "4").
    { apply ends_call; [apply call_reads_only, visualize_reads_only|auto]. }
    destruct (String.eqb (strip choice) "5").
    { right; right. eexists. split; [apply grown_refl|reflexivity]. }
    destruct (String.eqb (strip choice) "6").
    { right; left. split; [reflexivity|]. split; [apply grown_show|].
      cbn. eauto. }
    apply ends_show. auto.
Qed.

Lemma fits (lines : list string) : length lines <= length lines.
Proof. lia. Qed.


(** X11.  A session writes to the disk only by saving: at its end the disk
    is as it was, unless the user chose to save and leave; then the last
    line shown is the goodbye, and every file but the tracker's own is as
    it was. *)
Theorem menu_writes_only_on_save (lines : list string) (t : terminal) :
  let t' := snd (menu P clock io lines t) in
  files t' = files t
  \/ ((exists before, screen t' = before ++ [Goodbye])
      /\ forall other,
           other <> filename (object t) ->
           files t' !! other = files t !! other).
Proof.
  cbv zeta.
  destruct (menu_ends (length lines) lines t (fits lines))
    as [[_ Hg] | [(_ & Hg & _) | (t1 & Hg & Ho)]].
  - left. apply Hg.
  - left. apply Hg.
  - right. rewrite Ho.
    destruct (call_save_expenses t1) as (_ & _ & _ & Hbye & Hother).
    destruct Hg as (Hname & _ & Hfiles & _).
    split; [exact Hbye|]. intros other Hne.
    rewrite Hother by congruence. now rewrite Hfiles.
Qed.

(** X12.  A session never removes, reorders or edits what a row records:
    at its end the tracker has the file name it had, and the category,
    description and amount of its rows are those of the rows it began
    with, in their order, followed by those of the rows added. *)
Theorem menu_keeps_rows (lines : list string) (t : terminal) :
  let t' := snd (menu P clock io lines t) in
  filename (object t') = filename (object t)
  /\ exists more,
       map core (expenses (object t'))
       = map core (expenses (object t)) ++ more.
Proof.
  cbv zeta.
  assert (Hgrown : forall t1, grown t t1 ->
            filename (object t1) = filename (object t)
            /\ exists more,
                 map core (expenses (object t1))
                 = map core (expenses (object t)) ++ more).
  { intros t1 (Hname & [more Hmore] & _). split; [exact Hname|].
    exists (map core more). now rewrite Hmore, map_app. }
  destruct (menu_ends (length lines) lines t (fits lines))
    as [[_ Hg] | [(_ & Hg & _) | (t1 & Hg & Ho)]]; auto.
  rewrite Ho.
  destruct (call_save_expenses t1) as (_ & Hname & Hcore & _).
  destruct (Hgrown t1 Hg) as [Hname1 [more Hmore]].
  split; [congruence|]. exists more. now rewrite Hcore.
Qed.







(** X14.  When the tracker's file is a table with a [Date] column and no
    [Amount] column, the program ends before the menu is shown: after the
    note and the count of loaded records, KeyError leaves [main], whatever
    the user would have typed, and the disk is as it was. *)
Theorem script_ends_without_amount (d : gmap string file)
    (header : list string) (rows : list (list string)) (i : nat)
    (lines : list string) :
  d !! "expenses.csv" = Some (Table header rows) ->
  index_of "Date" header = Some i ->
  index_of "Amount" header = None ->
  let outcome := script P clock io lines (start d) in
  fst outcome = Raise (KeyError "Amount")
  /\ files (snd outcome) = d
  /\ screen (snd outcome)
     = [DependencyNote; Tracker (LoadedRecords (length rows))].
Proof.
  intros Hfile Hi Hj. cbv zeta.
  unfold script, main, mbind, sh_bind, show, call, start.
  cbn [object files screen].
  change {| self := {| filename := ""; expenses := [] |}; disk := d;
            console := [] |} with (boot d).
  rewrite (init_without_amount P "expenses.csv" d header rows i Hfile Hi Hj).
  repeat split.
Qed.

End Menu.


Lemma script_ends_without_amount_witness :
  fst (script reference (fun _ => today) Written ["2"; "6"]
         (start {[ "expenses.csv" := no_amount_file ]}))
  = Raise (KeyError "Amount").
Proof.
  apply (script_ends_without_amount reference (fun _ => today) Written
           {[ "expenses.csv" := no_amount_file ]}
           ["Date"; "Category"; "Description"]
           [["2024-01-01"; "Food"; "Lunch"]] 0 ["2"; "6"]);
    [vm_compute; reflexivity | reflexivity | reflexivity].
Defined.

(** ** Amounts that are all missing *)




(** ** A date that does not parse *)

Section BadDate.

Context (P : platform).

Lemma to_dates_unparsed (column : list date_cell) (s : string) :
  In (Unparsed s) column -> csv_datetime P s = None ->
  to_dates P column = Raise ValueError.
Proof.
  intros Hin Hs. induction column as [|c column IH]; [destruct Hin|].
  simpl. destruct Hin as [-> | Hin].
  - simpl. now rewrite Hs.
  - rewrite (IH Hin).
    destruct c as [|d|d t|u]; simpl; try reflexivity.
    destruct (csv_datetime P u) as [[d t]|]; reflexivity.
Qed.

Lemma parse_dates_unparsed (texts : list string) (s : string) :
  In s texts -> na_text s = false -> csv_datetime P s = None ->
  In (Unparsed s) (parse_dates P texts).
Proof.
  intros Hin Hna Hs. unfold parse_dates.
  destruct (forallb _ texts) eqn:Hall.
  - rewrite forallb_forall in Hall. specialize (Hall s Hin).
    now rewrite Hna, Hs in Hall.
  - apply in_map_iff. exists s. now rewrite Hna.
Qed.

(** X16.  One date that does not parse blocks every save.  When the file
    has a [Date] cell that is present and does not parse, the tracker is
    built with the dates kept as texts, and [save_expenses] then fails,
    whatever the write would do: it prints the failure and leaves the
    tracker and the disk as they were. *)
Theorem save_expenses_fails_after_bad_date (name : string)
    (d : gmap string file) (header : list string)
    (rows : list (list string)) (i j : nat) (s : string)
    (io : io_outcome) :
  d !! name = Some (Table header rows) ->
  index_of "Date" header = Some i ->
  index_of "Amount" header = Some j ->
  In s (column_at i rows) ->
  na_text s = false ->
  csv_datetime P s = None ->
  let w := snd (__init__ P name (boot d)) in
  save_expenses P io w
  = (Return tt,
     {| self := self w; disk := disk w;
        console := console w ++ [FailedToSave ValueError] |}).
Proof.
  intros Hfile Hi Hj Hin Hna Hs. cbv zeta.
  apply save_unconvertible.
  rewrite (init_table P name (boot d) header rows i j Hfile Hi Hj).
  cbn [snd self expenses].
  assert (Hc : forall c, length (text_column P header rows c)
                         = length (parse_dates P (column_at i rows))).
  { intros c.
    now rewrite text_column_length, parse_dates_length, column_at_length. }
  assert (Ha : length (to_numeric P (infer_column P (column_at j rows)))
               = length (parse_dates P (column_at i rows))).
  { unfold to_numeric.
    now rewrite length_map, infer_column_length, parse_dates_length,
      !column_at_length. }
  destruct (frame_rows_columns _ _ _ _ (Hc "Category") (Hc "Description") Ha)
    as (-> & _).
  apply (to_dates_unparsed _ s); [|exact Hs].
  now apply parse_dates_unparsed.
Qed.

End BadDate.

Lemma save_expenses_fails_after_bad_date_witness :
  disk (snd (save_expenses reference Written (loaded bad_date_file)))
  = {[ path := bad_date_file ]}
  /\ console (snd (save_expenses reference Written (loaded bad_date_file)))
     = [LoadedRecords 2; FailedToSave ValueError].
Proof.
  assert (Hfile : ({[ path := bad_date_file ]} : gmap string file) !! path
                  = Some (Table columns bad_date_rows))
    by (vm_compute; reflexivity).
  unfold loaded.
  rewrite (save_expenses_fails_after_bad_date reference path
             {[ path := bad_date_file ]} columns bad_date_rows 0 3
             "last Friday" Written Hfile eq_refl eq_refl);
    [split; vm_compute; reflexivity
    | right; left; reflexivity | reflexivity | reflexivity].
Defined.
